(** * log4g: the lifecycle manager and the logging call sites of log4g.go

    A shallow embedding of [log4g.go].  The package keeps its sinks, the
    one-time guard and the readiness flag in package-level variables; here
    they are the fields of [State], and every function of the package is a
    computation in the state monad [M].  Everything the package does to the
    outside (creating rotate loggers, writing, closing, printing through the
    standard logger) is appended to the [trace] of the state; what the outside
    answers (a failing [NewLogger], a failing [Close], the host name, the
    clock) is read from an environment [Env], whose answers may depend on the
    whole trace so far. *)

From Stdlib Require Import ZArith List String Ascii Bool Lia.
From Stdlib Require Import DecimalString.
Import ListNotations.

Local Open Scope Z_scope.
Local Open Scope string_scope.

(** ** Constants of the package *)

Definition accessFilename : string := "access.log".
Definition errorFilename : string := "error.log".
Definition slowFilename : string := "slow.log".
Definition statFilename : string := "stat.log".

Definition consoleMode : string := "console".
Definition varMode : string := "var".

Definition defaultHostName : string := "log4g".

Definition infoPrefix : string := "[INFO] ".
Definition errorPrefix : string := "[ERROR] ".
Definition slowPrefix : string := "[SLOW]".
Definition backupFileDelimiter : string := "-".
Definition callerInnerDepth : Z := 5.
Definition flags : Z := 0.

(** ** Errors

    The three sentinel errors of the package, and [ErrExternal] for an error
    value that comes from outside it (the operating system, the rotate
    logger).  A Go [error] is [option error], [None] being [nil]. *)

Inductive error : Type :=
| ErrLogPathNotSet
| ErrLogNotInitialized
| ErrLogNameSpaceNotSet
| ErrExternal (msg : string).

Definition error_Error (e : error) : string :=
  match e with
  | ErrLogPathNotSet => "log path must be set"
  | ErrLogNotInitialized => "log not initialized"
  | ErrLogNameSpaceNotSet => "log service name must be set"
  | ErrExternal msg => msg
  end.

(** ** Data *)

(** Modelled from the spec: the declaration of [Config] is not in
    [log4g.go]; these are the fields [SetUp], [setupWithFiles] and
    [setupWithVolume] read (mode selector, base directory, namespace string,
    retention in days, compression, cooldown). *)
Record Config : Type := mkConfig {
  NameSpace : string;
  LogMode : string;
  Path : string;
  Compress : bool;
  KeepDays : Z;
  StackCoolDownMillis : Z
}.

Record logOptions : Type := mkLogOptions {
  gzipEnabled : bool;
  logStackCoolDownMills : Z;
  keepDays : Z
}.

(** A [LogOption] is a closure over [*logOptions]; the three the package
    builds are the three constructors, and [applyOption] runs one. *)
Inductive LogOption : Type :=
| WithCoolDownMillis (millis : Z)
| WithKeepDays (days : Z)
| WithGzip.

Definition applyOption (opt : LogOption) (opts : logOptions) : logOptions :=
  match opt with
  | WithCoolDownMillis millis =>
      mkLogOptions (gzipEnabled opts) millis (keepDays opts)
  | WithKeepDays days =>
      mkLogOptions (gzipEnabled opts) (logStackCoolDownMills opts) days
  | WithGzip =>
      mkLogOptions true (logStackCoolDownMills opts) (keepDays opts)
  end.

(** Modelled from the spec: [DefaultBackupRule] is not in [log4g.go]; the
    rule is the value its four arguments make (base path, naming delimiter,
    keep-days, compression flag). *)
Record BackupRule : Type := DefaultBackupRule {
  rule_filename : string;
  rule_delimiter : string;
  rule_days : Z;
  rule_gzip : bool
}.

Inductive Stream : Type := Stdout | Stderr.

(** A [*log.Logger] made by [log.New(out, prefix, flag)]. *)
Record GoLogger : Type := log_New {
  logger_out : Stream;
  logger_prefix : string;
  logger_flag : Z
}.

(** The values an [io.WriteCloser] variable of the package holds: the
    console writer [logWriter] of this file, or the rotate logger
    [NewLogger] returns.  [nil] is [None] of [option Sink]. *)
Inductive Sink : Type :=
| logWriter (logger : GoLogger)
| RotateLogger (filename : string) (rule : BackupRule) (compress : bool).

Definition newLogWriter (logger : GoLogger) : Sink := logWriter logger.

(** Modelled from the spec: [LessLogger] is not in [log4g.go]; it is made
    from the cooldown in milliseconds. *)
Record LessLogger : Type := NewLessLogger {
  less_coolDownMills : Z
}.

(** ** The outside world *)

Inductive Event : Type :=
| EvNewLogger (filename : string) (rule : BackupRule) (compress : bool)
| EvSinkWrite (s : Sink) (data : string)
| EvSinkClose (s : Sink)
| EvStream (out : Stream) (data : string)
| EvStdPrint (content : string)
| EvStdPrintln (e : error)
| EvLessErrorf (l : option LessLogger) (msg stack : string).

Record Env : Type := mkEnv {
  (** [os.Hostname()] *)
  os_Hostname : list Event -> string * option error;
  (** [time.Now().Format(TimeFormat)] *)
  time_Now : list Event -> string;
  (** [runtime.Caller(depth)]: file and line, [None] when not ok *)
  runtime_Caller : list Event -> Z -> option (string * Z);
  (** [debug.Stack()] *)
  debug_Stack : list Event -> string;
  (** the error of [NewLogger(filename, rule, compress)], [None] for success *)
  NewLogger_err : list Event -> string -> BackupRule -> bool -> option error;
  (** the error of [Write] on a rotate logger *)
  sink_Write_err : list Event -> Sink -> string -> option error;
  (** the error of [Close] on a rotate logger *)
  sink_Close_err : list Event -> Sink -> option error
}.

(** ** The package-level variables *)

Record State : Type := mkState {
  writeConsole : bool;
  infoLog : option Sink;
  errorLog : option Sink;
  slowLog : option Sink;
  statLog : option Sink;
  stackLog : option LessLogger;
  once : bool;
  initialized : Z;
  options : logOptions;
  trace : list Event
}.

(** The state a process starts in: Go's zero values. *)
Definition init : State :=
  mkState false None None None None None false 0
          (mkLogOptions false 0 0) [].

Definition set_writeConsole (b : bool) (st : State) : State :=
  mkState b (infoLog st) (errorLog st) (slowLog st) (statLog st)
          (stackLog st) (once st) (initialized st) (options st) (trace st).

Definition set_infoLog (w : option Sink) (st : State) : State :=
  mkState (writeConsole st) w (errorLog st) (slowLog st) (statLog st)
          (stackLog st) (once st) (initialized st) (options st) (trace st).

Definition set_errorLog (w : option Sink) (st : State) : State :=
  mkState (writeConsole st) (infoLog st) w (slowLog st) (statLog st)
          (stackLog st) (once st) (initialized st) (options st) (trace st).

Definition set_slowLog (w : option Sink) (st : State) : State :=
  mkState (writeConsole st) (infoLog st) (errorLog st) w (statLog st)
          (stackLog st) (once st) (initialized st) (options st) (trace st).

Definition set_statLog (w : option Sink) (st : State) : State :=
  mkState (writeConsole st) (infoLog st) (errorLog st) (slowLog st) w
          (stackLog st) (once st) (initialized st) (options st) (trace st).

Definition set_stackLog (l : option LessLogger) (st : State) : State :=
  mkState (writeConsole st) (infoLog st) (errorLog st) (slowLog st)
          (statLog st) l (once st) (initialized st) (options st) (trace st).

Definition set_once (b : bool) (st : State) : State :=
  mkState (writeConsole st) (infoLog st) (errorLog st) (slowLog st)
          (statLog st) (stackLog st) b (initialized st) (options st)
          (trace st).

Definition set_initialized (v : Z) (st : State) : State :=
  mkState (writeConsole st) (infoLog st) (errorLog st) (slowLog st)
          (statLog st) (stackLog st) (once st) v (options st) (trace st).

Definition set_options (o : logOptions) (st : State) : State :=
  mkState (writeConsole st) (infoLog st) (errorLog st) (slowLog st)
          (statLog st) (stackLog st) (once st) (initialized st) o (trace st).

Definition set_trace (t : list Event) (st : State) : State :=
  mkState (writeConsole st) (infoLog st) (errorLog st) (slowLog st)
          (statLog st) (stackLog st) (once st) (initialized st) (options st)
          t.

(** ** The state monad *)

Definition M (A : Type) : Type := State -> A * State.

Definition ret {A : Type} (a : A) : M A := fun st => (a, st).

Definition bind {A B : Type} (m : M A) (k : A -> M B) : M B :=
  fun st => let (a, st') := m st in k a st'.

Definition gets {A : Type} (f : State -> A) : M A := fun st => (f st, st).

Definition modify (f : State -> State) : M unit := fun st => (tt, f st).

Notation "x <- m ;; k" := (bind m (fun x => k))
  (at level 61, m at next level, right associativity).
Notation "m ;;; k" := (bind m (fun _ => k))
  (at level 61, right associativity).

(** Appending one event to the trace. *)
Definition emit (e : Event) : M unit :=
  modify (fun st => set_trace (trace st ++ [e])%list st).

(** Asking the environment, which sees the trace so far. *)
Definition ask {A : Type} (q : list Event -> A) : M A :=
  gets (fun st => q (trace st)).

(** The value a computation returns and the state it leaves. *)
Definition result {A : Type} (m : M A) (st : State) : A := fst (m st).
Definition after {A : Type} (m : M A) (st : State) : State := snd (m st).

(** ** [path.Join] of Go's standard library

    [Join] joins the non-empty elements with a slash and cleans the result;
    it returns the empty string when every element is empty.  [Clean] is
    written here over the components of the path: empty and [.] components
    are dropped, [..] removes the component before it, is dropped at the root
    and is kept at the start of a path that is not rooted. *)

Definition slash : ascii := "/"%char.

Fixpoint split_slash (s : string) : list string :=
  match s with
  | EmptyString => [EmptyString]
  | String c r =>
      if Ascii.eqb c slash then EmptyString :: split_slash r
      else match split_slash r with
           | h :: t => String c h :: t
           | [] => [String c EmptyString]
           end
  end.

Fixpoint clean_comps (rooted : bool) (comps : list string)
         (out : list string) (dotdot : nat) : list string :=
  match comps with
  | [] => rev out
  | c :: rest =>
      if String.eqb c "" || String.eqb c "." then
        clean_comps rooted rest out dotdot
      else if String.eqb c ".." then
        if Nat.ltb dotdot (List.length out) then
          clean_comps rooted rest (tl out) dotdot
        else if rooted then clean_comps rooted rest out dotdot
        else clean_comps rooted rest (c :: out) (S dotdot)
      else clean_comps rooted rest (c :: out) dotdot
  end.

Definition path_Clean (p : string) : string :=
  match p with
  | EmptyString => "."
  | String c _ =>
      let rooted := Ascii.eqb c slash in
      let body := String.concat "/" (clean_comps rooted (split_slash p) [] 0) in
      let out := if rooted then String slash body else body in
      if String.eqb out "" then "." else out
  end.

Definition path_Join (elem : list string) : string :=
  let nonempty := filter (fun e => negb (String.eqb e "")) elem in
  match nonempty with
  | [] => ""
  | _ => path_Clean (String.concat "/" nonempty)
  end.

(** ** The functions of log4g.go *)

Section Log4g.

Variable env : Env.

(** *** Library calls *)

(** [log.Print(content)] on the standard logger: the raw fallback writer. *)
Definition log_Print (content : string) : M unit := emit (EvStdPrint content).

(** [log.Println(err)] on the standard logger. *)
Definition log_Println (e : error) : M unit := emit (EvStdPrintln e).

Fixpoint endsWithNewline (s : string) : bool :=
  match s with
  | EmptyString => false
  | String c EmptyString => Ascii.eqb c "010"%char
  | String _ r => endsWithNewline r
  end.

(** [l.Print(s)] on a logger made with [flags = 0x0]: the header is the
    prefix alone, and a newline is added when [s] does not end in one. *)
Definition Logger_Print (l : GoLogger) (s : string) : M unit :=
  emit (EvStream (logger_out l)
          (logger_prefix l ++ s
           ++ (if endsWithNewline s then "" else String "010"%char ""))).

(** [NewLogger(filename, rule, compress)]: the call is traced; when the
    environment lets it succeed the new rotate logger is returned, otherwise
    [nil] and the error. *)
Definition NewLogger (filename : string) (rule : BackupRule) (compress : bool)
  : M (option Sink * option error) :=
  err <- ask (fun t => NewLogger_err env t filename rule compress) ;;
  emit (EvNewLogger filename rule compress) ;;;
  match err with
  | None => ret (Some (RotateLogger filename rule compress), None)
  | Some e => ret (None, Some e)
  end.

(** *** [logWriter] and the [io.WriteCloser] methods *)

(** [Close]: [logWriter.Close] returns [nil]; a rotate logger's [Close] is
    traced and answers what the environment says. *)
Definition sink_Close (s : Sink) : M (option error) :=
  match s with
  | logWriter _ => ret None
  | RotateLogger _ _ _ =>
      err <- ask (fun t => sink_Close_err env t s) ;;
      emit (EvSinkClose s) ;;;
      ret err
  end.

(** [Write]: [logWriter.Write] prints the data through its logger and
    returns [nil]. *)
Definition sink_Write (s : Sink) (data : string) : M (option error) :=
  match s with
  | logWriter l => Logger_Print l data ;;; ret None
  | RotateLogger _ _ _ =>
      err <- ask (fun t => sink_Write_err env t s data) ;;
      emit (EvSinkWrite s data) ;;;
      ret err
  end.

(** *** [getHostname] *)

Definition getHostname : M string :=
  r <- ask (os_Hostname env) ;;
  let (hostname, err) := r in
  match err with
  | Some _ => ret defaultHostName
  | None =>
      if (String.length hostname =? 0)%nat then ret defaultHostName
      else ret hostname
  end.

(** *** [AddTime], [getCaller], [AddTimeAndCaller] *)

Definition AddTime (msg : string) : M string :=
  now <- ask (time_Now env) ;;
  ret (now ++ " " ++ msg).

(** The part of [s] after its last slash, if it has one. *)
Fixpoint afterLastSlash (s : string) : option string :=
  match s with
  | EmptyString => None
  | String c r =>
      match afterLastSlash r with
      | Some t => Some t
      | None => if Ascii.eqb c slash then Some r else None
      end
  end.

(** The loop of [getCaller] looks for the last slash at an index [i > 0]. *)
Definition shortFile (file : string) : string :=
  match file with
  | EmptyString => file
  | String _ r =>
      match afterLastSlash r with
      | Some short => short
      | None => file
      end
  end.

Definition strconv_Itoa (n : Z) : string :=
  NilZero.string_of_int (Z.to_int n).

Definition getCaller (callDepth : Z) : M string :=
  r <- ask (fun t => runtime_Caller env t callDepth) ;;
  match r with
  | Some (file, line) => ret (shortFile file ++ ":" ++ strconv_Itoa line)
  | None => ret ""
  end.

Definition AddTimeAndCaller (msg : string) (callDepth : Z) : M string :=
  now <- ask (time_Now env) ;;
  caller <- getCaller callDepth ;;
  if (0 <? String.length caller)%nat
  then ret (now ++ " " ++ caller ++ " " ++ msg)
  else ret (now ++ " " ++ msg).

(** *** [output], [outputError] *)

Definition output (writer : option Sink) (msg : string) : M unit :=
  buf <- AddTime msg ;;
  match writer with
  | Some w =>
      err <- sink_Write w buf ;;
      match err with
      | Some e => log_Println e
      | None => ret tt
      end
  | None => log_Print buf
  end.

Definition outputError (writer : option Sink) (msg : string) (callDepth : Z)
  : M unit :=
  content <- AddTimeAndCaller msg callDepth ;;
  match writer with
  | Some w =>
      err <- sink_Write w content ;;
      match err with
      | Some e => log_Println e
      | None => ret tt
      end
  | None => log_Print content
  end.

(** *** The logging call sites

    The exported [Info], [Error], [Slow], [Stat], [Server] and their
    [...Format] and [...Caller] variants format their operands with [fmt] and
    pass the string to one of the five functions below; [msg] is that
    string. *)

Definition infoSync (msg : string) : M unit :=
  i <- gets initialized ;;
  if Z.eqb i 0 then output None msg
  else w <- gets infoLog ;; output w msg.

Definition errorSync (msg : string) (callDepth : Z) : M unit :=
  i <- gets initialized ;;
  if Z.eqb i 0 then outputError None msg callDepth
  else w <- gets errorLog ;; outputError w msg callDepth.

Definition slowSync (msg : string) : M unit :=
  i <- gets initialized ;;
  if Z.eqb i 0 then output None msg
  else w <- gets slowLog ;; output w msg.

Definition statSync (msg : string) : M unit :=
  i <- gets initialized ;;
  if Z.eqb i 0 then output None msg
  else w <- gets statLog ;; output w msg.

(** [stackLog.Errorf("%s\n%s", msg, stack)]: [LessLogger] is not in
    log4g.go, so the call is traced with its receiver and its arguments. *)
Definition LessLogger_Errorf (l : option LessLogger) (msg stack : string)
  : M unit :=
  emit (EvLessErrorf l msg stack).

Definition stackSync (msg : string) : M unit :=
  i <- gets initialized ;;
  stack <- ask (debug_Stack env) ;;
  if Z.eqb i 0 then output None (msg ++ String "010"%char "" ++ stack)
  else l <- gets stackLog ;; LessLogger_Errorf l msg stack.

(** *** Options and [createOutput] *)

Definition handleOptions (opts : list LogOption) : M unit :=
  modify (fun st =>
            set_options (fold_left (fun o opt => applyOption opt o) opts
                                   (options st)) st).

Definition createOutput (path : string) : M (option Sink * option error) :=
  if (String.length path =? 0)%nat then ret (None, Some ErrLogPathNotSet)
  else
    o <- gets options ;;
    NewLogger path
              (DefaultBackupRule path backupFileDelimiter (keepDays o)
                                 (gzipEnabled o))
              (gzipEnabled o).

(** *** [sync.Once]

    [once.Do(f)]: [f] runs if no [Do] of this [once] has run before.  The
    closures of this file assign to local variables of the function around
    them; those locals are the argument and the result of [f]. *)
Definition once_Do {L : Type} (f : L -> M L) (locals : L) : M L :=
  done <- gets once ;;
  if done then ret locals
  else
    l <- f locals ;;
    modify (set_once true) ;;;
    ret l.

(** *** Setup *)

Definition setupWithConsole : M unit :=
  modify (set_writeConsole true) ;;;
  once_Do (fun _ : unit =>
    modify (set_infoLog
              (Some (newLogWriter (log_New Stdout infoPrefix flags)))) ;;;
    modify (set_errorLog
              (Some (newLogWriter (log_New Stderr errorPrefix flags)))) ;;;
    modify (set_slowLog
              (Some (newLogWriter (log_New Stderr slowPrefix flags)))) ;;;
    w <- gets infoLog ;;
    modify (set_statLog w) ;;;
    modify (set_initialized 1)) tt.

(** The closure [setupWithFiles] hands to [once.Do]; [err] is the local
    variable of [setupWithFiles] it assigns. *)
Definition setupFiles_once (opts : list LogOption)
           (accessFile errorFile slowFile statFile : string)
           (err : option error) : M (option error) :=
  handleOptions opts ;;;
  r <- createOutput accessFile ;;
  modify (set_infoLog (fst r)) ;;;
  match snd r with
  | Some e => ret (Some e)
  | None =>
  r <- createOutput errorFile ;;
  modify (set_errorLog (fst r)) ;;;
  match snd r with
  | Some e => ret (Some e)
  | None =>
  r <- createOutput slowFile ;;
  modify (set_slowLog (fst r)) ;;;
  match snd r with
  | Some e => ret (Some e)
  | None =>
  r <- createOutput statFile ;;
  modify (set_statLog (fst r)) ;;;
  match snd r with
  | Some e => ret (Some e)
  | None =>
  o <- gets options ;;
  modify (set_stackLog (Some (NewLessLogger (logStackCoolDownMills o)))) ;;;
  modify (set_initialized 1) ;;;
  ret None
  end end end end.

Definition setupWithFiles (c : Config) : M (option error) :=
  if (String.length (Path c) =? 0)%nat then ret (Some ErrLogPathNotSet)
  else
    let opts := [WithCoolDownMillis (StackCoolDownMillis c)] in
    let opts := if Compress c then (opts ++ [WithGzip])%list else opts in
    let opts := if Z.ltb 0 (KeepDays c)
                then (opts ++ [WithKeepDays (KeepDays c)])%list else opts in
    let accessFile := path_Join [Path c; accessFilename] in
    let errorFile := path_Join [Path c; errorFilename] in
    let slowFile := path_Join [Path c; slowFilename] in
    let statFile := path_Join [Path c; statFilename] in
    once_Do (setupFiles_once opts accessFile errorFile slowFile statFile) None.

Definition with_Path (p : string) (c : Config) : Config :=
  mkConfig (NameSpace c) (LogMode c) p (Compress c) (KeepDays c)
           (StackCoolDownMillis c).

Definition setupWithVolume (c : Config) : M (option error) :=
  if (String.length (NameSpace c) =? 0)%nat
  then ret (Some ErrLogNameSpaceNotSet)
  else
    hostname <- getHostname ;;
    let c := with_Path (path_Join [Path c; NameSpace c; hostname]) c in
    setupWithFiles c.

Definition SetUp (c : Config) : M (option error) :=
  if String.eqb (LogMode c) consoleMode then setupWithConsole ;;; ret None
  else if String.eqb (LogMode c) varMode then setupWithVolume c
  else setupWithFiles c.

(** *** [Close] *)

Definition closeIfSet (w : option Sink) : M (option error) :=
  match w with
  | Some s => sink_Close s
  | None => ret None
  end.

Definition Close : M (option error) :=
  wc <- gets writeConsole ;;
  if wc then ret None
  else
    i <- gets initialized ;;
    if Z.eqb i 0 then ret (Some ErrLogNotInitialized)
    else
      modify (set_initialized 0) ;;;
      w <- gets infoLog ;;
      err <- closeIfSet w ;;
      match err with
      | Some e => ret (Some e)
      | None =>
      w <- gets errorLog ;;
      err <- closeIfSet w ;;
      match err with
      | Some e => ret (Some e)
      | None =>
      w <- gets slowLog ;;
      err <- closeIfSet w ;;
      match err with
      | Some e => ret (Some e)
      | None =>
      w <- gets statLog ;;
      err <- closeIfSet w ;;
      match err with
      | Some e => ret (Some e)
      | None => ret None
      end end end end.

(** *** Runs of the package

    What a client can do to the package, one call at a time; [run] threads
    the state through a list of calls and drops what they return. *)

Inductive Op : Type :=
| OpSetUp (c : Config)
| OpClose
| OpInfo (msg : string)
| OpError (msg : string) (callDepth : Z)
| OpSlow (msg : string)
| OpStat (msg : string)
| OpStack (msg : string).

Definition step (op : Op) (st : State) : State :=
  match op with
  | OpSetUp c => after (SetUp c) st
  | OpClose => after Close st
  | OpInfo msg => after (infoSync msg) st
  | OpError msg callDepth => after (errorSync msg callDepth) st
  | OpSlow msg => after (slowSync msg) st
  | OpStat msg => after (statSync msg) st
  | OpStack msg => after (stackSync msg) st
  end.

Definition run (ops : list Op) (st : State) : State :=
  fold_left (fun s op => step op s) ops st.

(** *** Descriptions used by the statements *)

(** The rotate logger [createOutput] makes for [file] under options [o]. *)
Definition fileSink (o : logOptions) (file : string) : Sink :=
  RotateLogger file
    (DefaultBackupRule file backupFileDelimiter (keepDays o) (gzipEnabled o))
    (gzipEnabled o).

(** The events of one [writer.Write(data)] in [output], the report of a
    failed write through [log.Println] included, when the trace so far is
    [t]. *)
Definition write_events (t : list Event) (w : Sink) (data : string)
  : list Event :=
  match w with
  | logWriter l =>
      [EvStream (logger_out l)
         (logger_prefix l ++ data
          ++ (if endsWithNewline data then "" else String "010"%char ""))]
  | RotateLogger _ _ _ =>
      EvSinkWrite w data ::
      match sink_Write_err env t w data with
      | Some e => [EvStdPrintln e]
      | None => []
      end
  end.

(** What the environment answers to the [j]-th close (from 0) when the
    sinks [ws] are closed one after the other from trace [t]. *)
Definition close_answer (t : list Event) (ws : list Sink) (j : nat)
  : option error :=
  match nth_error ws j with
  | Some w => sink_Close_err env (t ++ map EvSinkClose (firstn j ws))%list w
  | None => None
  end.

(** The content [outputError] builds for [msg] at trace [t]. *)
Definition error_content (t : list Event) (msg : string) (callDepth : Z)
  : string :=
  match runtime_Caller env t callDepth with
  | Some (file, line) =>
      time_Now env t ++ " " ++ (shortFile file ++ ":" ++ strconv_Itoa line)
      ++ " " ++ msg
  | None => time_Now env t ++ " " ++ msg
  end.

End Log4g.

(** The checks [SetUp] makes on the configuration before the guarded
    section, in file and in volume mode. *)
Definition config_error (c : Config) : option error :=
  if String.eqb (LogMode c) varMode then
    if String.eqb (NameSpace c) "" then Some ErrLogNameSpaceNotSet else None
  else
    if String.eqb (Path c) "" then Some ErrLogPathNotSet else None.

(** The directory [setupWithFiles] is given: the configured path in file
    mode, the path joined with the namespace and the host name in volume
    mode. *)
Definition log_dir (env : Env) (c : Config) (st : State) : string :=
  if String.eqb (LogMode c) varMode
  then path_Join [Path c; NameSpace c; fst (getHostname env st)]
  else Path c.

(** When the readiness flag is up the guard has fired and the four sinks
    are set. *)
Definition ready_inv (st : State) : Prop :=
  initialized st <> 0 ->
  once st = true /\ infoLog st <> None /\ errorLog st <> None /\
  slowLog st <> None /\ statLog st <> None.

(** The state console setup leaves when it is the first setup: the three
    console writers, the stat sink being the info sink. *)
Definition console_ready (st : State) : Prop :=
  writeConsole st = true /\ once st = true /\ initialized st = 1 /\
  infoLog st = Some (logWriter (log_New Stdout infoPrefix flags)) /\
  errorLog st = Some (logWriter (log_New Stderr errorPrefix flags)) /\
  slowLog st = Some (logWriter (log_New Stderr slowPrefix flags)) /\
  statLog st = infoLog st.

(** [s] has no slash. *)
Fixpoint no_slash (s : string) : bool :=
  match s with
  | EmptyString => true
  | String c r => negb (Ascii.eqb c slash) && no_slash r
  end.

(** The options [setupWithFiles] builds from the configuration before it
    enters the guarded section. *)
Definition file_options (c : Config) : list LogOption :=
  let opts := [WithCoolDownMillis (StackCoolDownMillis c)] in
  let opts := if Compress c then (opts ++ [WithGzip])%list else opts in
  if Z.ltb 0 (KeepDays c)
  then (opts ++ [WithKeepDays (KeepDays c)])%list else opts.

(** The four files of a log directory, in the order the guarded section
    creates them. *)
Definition log_files (dir : string) : list string :=
  [path_Join [dir; accessFilename]; path_Join [dir; errorFilename];
   path_Join [dir; slowFilename]; path_Join [dir; statFilename]].

(** The call [createOutput] makes to [NewLogger] for [file] under options
    [o]. *)
Definition create_event (o : logOptions) (file : string) : Event :=
  EvNewLogger file
    (DefaultBackupRule file backupFileDelimiter (keepDays o) (gzipEnabled o))
    (gzipEnabled o).

(** What the environment answers to the [j]-th [NewLogger] (from 0) when the
    files [files] are created one after the other from trace [t]. *)
Definition create_answer (env : Env) (t : list Event) (o : logOptions)
           (files : list string) (j : nat) : option error :=
  match nth_error files j with
  | Some f =>
      NewLogger_err env (t ++ map (create_event o) (firstn j files))%list f
        (DefaultBackupRule f backupFileDelimiter (keepDays o) (gzipEnabled o))
        (gzipEnabled o)
  | None => None
  end.

Definition is_NewLogger (e : Event) : bool :=
  match e with
  | EvNewLogger _ _ _ => true
  | _ => false
  end.

(** How many times [NewLogger] was called in a trace. *)
Definition NewLogger_calls (t : list Event) : nat :=
  List.length (filter is_NewLogger t).

Definition is_StdPrint (e : Event) : bool :=
  match e with
  | EvStdPrint _ => true
  | _ => false
  end.

(** *** [Init]

    [log.Fatal(err)] is [log.Print(err)], which prints [err.Error()] through
    the standard logger, followed by [os.Exit(1)]; [Init] tells whether the
    process goes on. *)
Inductive InitOutcome : Type :=
| Running
| Exited (code : Z).

Definition Init (env : Env) (c : Config) : M InitOutcome :=
  bind (SetUp env c) (fun err =>
    match err with
    | Some e => bind (log_Print (error_Error e)) (fun _ => ret (Exited 1))
    | None => ret Running
    end).

(** ** Sample environments and configurations *)

Definition env_ok : Env :=
  mkEnv (fun _ => ("node-7", None))
        (fun _ => "2024-05-01 10:00:00.000")
        (fun _ _ => Some ("/go/src/shop/order/handler.go", 42))
        (fun _ => "goroutine 1 [running]:")
        (fun _ _ _ _ => None)
        (fun _ _ _ => None)
        (fun _ _ => None).

(** The log directory cannot be written: every [NewLogger] fails. *)
Definition env_open_fails : Env :=
  mkEnv (os_Hostname env_ok) (time_Now env_ok) (runtime_Caller env_ok)
        (debug_Stack env_ok)
        (fun _ _ _ _ => Some (ErrExternal "permission denied"))
        (sink_Write_err env_ok) (sink_Close_err env_ok).

(** Closing the access log fails; the other closes succeed. *)
Definition env_close_fails : Env :=
  mkEnv (os_Hostname env_ok) (time_Now env_ok) (runtime_Caller env_ok)
        (debug_Stack env_ok) (NewLogger_err env_ok) (sink_Write_err env_ok)
        (fun _ s =>
           match s with
           | RotateLogger "/var/log/app/access.log" _ _ =>
               Some (ErrExternal "sync failed")
           | _ => None
           end).

(** [os.Hostname()] fails. *)
Definition env_no_host : Env :=
  mkEnv (fun _ => ("", Some (ErrExternal "hostname: not available")))
        (time_Now env_ok) (runtime_Caller env_ok) (debug_Stack env_ok)
        (NewLogger_err env_ok) (sink_Write_err env_ok) (sink_Close_err env_ok).

Definition file_config : Config :=
  mkConfig "" "file" "/var/log/app" true 3 100.

Definition volume_config : Config :=
  mkConfig "shop" "var" "/data" false 7 100.

Definition console_config : Config :=
  mkConfig "" "console" "" false 0 0.

(** * Properties *)

(** ** [path.Join] on the paths of the package *)

Example path_Join_dir :
  path_Join ["/var/log/app"; accessFilename] = "/var/log/app/access.log".
Proof. reflexivity. Qed.

Example path_Join_volume :
  path_Join ["/data"; "shop"; "node-7"] = "/data/shop/node-7".
Proof. reflexivity. Qed.

Example path_Join_skips_empty :
  path_Join [""; "shop"; ""] = "shop" /\ path_Join [""; ""] = "".
Proof. split; reflexivity. Qed.

Example path_Join_cleans :
  path_Join ["logs//a/../b/"; "./x"] = "logs/b/x"
  /\ path_Join ["/.."; "a"] = "/a"
  /\ path_Join [".."; ".."; "a"] = "../../a"
  /\ path_Join ["a"; ".."] = ".".
Proof. repeat split; reflexivity. Qed.

Example shortFile_handler :
  shortFile "/go/src/shop/order/handler.go" = "handler.go"
  /\ shortFile "/main.go" = "/main.go"
  /\ shortFile "main.go" = "main.go".
Proof. repeat split; reflexivity. Qed.

Example strconv_Itoa_42 :
  strconv_Itoa 42 = "42" /\ strconv_Itoa 0 = "0" /\ strconv_Itoa (-7) = "-7".
Proof. repeat split; reflexivity. Qed.

Lemma path_Clean_nonempty (p : string) : path_Clean p <> "".
Proof.
  unfold path_Clean. destruct p as [|c r]; [discriminate|].
  cbv zeta.
  match goal with
  | |- (if String.eqb ?o "" then _ else _) <> _ =>
      destruct (String.eqb o "") eqn:E
  end.
  - discriminate.
  - now apply String.eqb_neq.
Qed.

Lemma path_Join_nonempty (elem : list string) :
  (exists e, In e elem /\ e <> "") -> path_Join elem <> "".
Proof.
  intros [e [Hin Hne]]. unfold path_Join.
  destruct (filter (fun e => negb (String.eqb e "")) elem) as [|h t] eqn:F.
  - assert (Hf : In e (filter (fun e => negb (String.eqb e "")) elem)).
    { apply filter_In. split; [exact Hin|].
      apply Bool.negb_true_iff. now apply String.eqb_neq. }
    rewrite F in Hf. destruct Hf.
  - apply path_Clean_nonempty.
Qed.

Lemma length_zero_eqb (s : string) :
  (String.length s =? 0)%nat = String.eqb s "".
Proof. destruct s; reflexivity. Qed.

(** ** Lemmas on the functions of the package *)

Ltac monad_unfold :=
  unfold emit, ask in *; unfold bind, ret, gets, modify, result, after in *.

Section Properties.

Variable env : Env.

Lemma set_trace_same (st : State) : set_trace (trace st) st = st.
Proof. destruct st; reflexivity. Qed.

Lemma getHostname_state (st : State) :
  snd (getHostname env st) = st.
Proof.
  unfold getHostname. monad_unfold. simpl.
  destruct (os_Hostname env (trace st)) as [name [e|]]; simpl;
    [reflexivity|].
  destruct (String.length name =? 0)%nat; reflexivity.
Qed.

Lemma once_Do_done {L : Type} (f : L -> M L) (locals : L) (st : State) :
  once st = true -> once_Do f locals st = (locals, st).
Proof. intros H. unfold once_Do. monad_unfold. now rewrite H. Qed.

Lemma once_Do_first {L : Type} (f : L -> M L) (locals : L) (st : State) :
  once st = false ->
  once_Do f locals st = (fst (f locals st), set_once true (snd (f locals st))).
Proof.
  intros H. unfold once_Do. monad_unfold. rewrite H.
  destruct (f locals st); reflexivity.
Qed.

Lemma setupWithFiles_done (c : Config) (st : State) :
  once st = true ->
  setupWithFiles env c st =
  (if String.eqb (Path c) "" then Some ErrLogPathNotSet else None, st).
Proof.
  intros H. unfold setupWithFiles. rewrite length_zero_eqb.
  destruct (String.eqb (Path c) ""); [reflexivity|].
  now apply once_Do_done.
Qed.

Lemma setupWithVolume_unfold (c : Config) (st : State) :
  NameSpace c <> "" ->
  setupWithVolume env c st =
  setupWithFiles env
    (with_Path (path_Join [Path c; NameSpace c; fst (getHostname env st)]) c)
    st.
Proof.
  intros H. unfold setupWithVolume. rewrite length_zero_eqb.
  apply String.eqb_neq in H. rewrite H.
  unfold bind. pose proof (getHostname_state st) as Hs.
  destruct (getHostname env st) as [h st']. simpl in *. now subst.
Qed.

Lemma volume_path_nonempty (c : Config) (h : string) :
  NameSpace c <> "" ->
  String.eqb (Path (with_Path (path_Join [Path c; NameSpace c; h]) c)) ""
  = false.
Proof.
  intros H. simpl. apply String.eqb_neq. apply path_Join_nonempty.
  exists (NameSpace c). split; [simpl; auto|exact H].
Qed.

Lemma SetUp_done (c : Config) (st : State) :
  LogMode c <> consoleMode -> once st = true ->
  SetUp env c st = (config_error c, st).
Proof.
  intros Hm Ho. unfold SetUp, config_error.
  apply String.eqb_neq in Hm. rewrite Hm.
  destruct (String.eqb (LogMode c) varMode).
  - destruct (String.eqb (NameSpace c) "") eqn:En.
    + unfold setupWithVolume. rewrite length_zero_eqb, En. reflexivity.
    + apply String.eqb_neq in En.
      rewrite setupWithVolume_unfold by exact En.
      rewrite setupWithFiles_done by exact Ho.
      now rewrite volume_path_nonempty.
  - now apply setupWithFiles_done.
Qed.

Lemma SetUp_config_error (c : Config) (st : State) :
  LogMode c <> consoleMode -> config_error c <> None ->
  SetUp env c st = (config_error c, st).
Proof.
  intros Hm He. unfold SetUp, config_error in *.
  apply String.eqb_neq in Hm. rewrite Hm.
  destruct (String.eqb (LogMode c) varMode).
  - unfold setupWithVolume. rewrite length_zero_eqb.
    destruct (String.eqb (NameSpace c) ""); [reflexivity|congruence].
  - unfold setupWithFiles. rewrite length_zero_eqb.
    destruct (String.eqb (Path c) ""); [reflexivity|congruence].
Qed.

(** The guarded section of [setupWithFiles]: either every rotate logger was
    made, the four sinks are set and the flag is raised, or an error comes
    back and the flag is as before. *)
Lemma setupFiles_once_cases (opts : list LogOption)
      (fa fe fs ft : string) (err0 : option error) (st : State) :
  let r := setupFiles_once env opts fa fe fs ft err0 st in
  writeConsole (snd r) = writeConsole st /\ once (snd r) = once st /\
  ((exists e, fst r = Some e /\ initialized (snd r) = initialized st)
   \/
   (fst r = None /\ initialized (snd r) = 1 /\
    infoLog (snd r) = Some (fileSink (options (snd r)) fa) /\
    errorLog (snd r) = Some (fileSink (options (snd r)) fe) /\
    slowLog (snd r) = Some (fileSink (options (snd r)) fs) /\
    statLog (snd r) = Some (fileSink (options (snd r)) ft))).
Proof.
  unfold setupFiles_once, createOutput, NewLogger, handleOptions, fileSink.
  monad_unfold. cbv zeta.
  repeat
    (match goal with
     | |- context [if (String.length ?p =? 0)%nat then _ else _] =>
         destruct (String.length p =? 0)%nat
     | |- context [match NewLogger_err ?e ?t ?f ?r ?g with _ => _ end] =>
         destruct (NewLogger_err e t f r g)
     end; simpl);
    (split; [reflexivity|]); (split; [reflexivity|]);
    first [ left; eexists; split; reflexivity
          | right; repeat split; reflexivity ].
Qed.

(** *** The logging call sites only append to the trace *)

Lemma output_eq (w : option Sink) (msg : string) (st : State) :
  output env w msg st =
  (tt, set_trace
         (trace st ++
          match w with
          | Some s =>
              write_events env (trace st) s (time_Now env (trace st) ++ " " ++ msg)
          | None => [EvStdPrint (time_Now env (trace st) ++ " " ++ msg)]
          end)%list st).
Proof.
  unfold output, AddTime, sink_Write, Logger_Print, log_Print, log_Println,
    write_events.
  monad_unfold. simpl.
  destruct w as [[l|f r g]|]; simpl; try reflexivity.
  destruct (sink_Write_err env (trace st) (RotateLogger f r g) _); simpl;
    unfold set_trace; simpl; rewrite <- ?app_assoc; reflexivity.
Qed.

Lemma caller_nonempty (a b : string) (c : ascii) :
  (0 <? String.length (a ++ String c "" ++ b))%nat = true.
Proof. destruct a; reflexivity. Qed.

Lemma AddTimeAndCaller_eq (msg : string) (d : Z) (st : State) :
  AddTimeAndCaller env msg d st = (error_content env (trace st) msg d, st).
Proof.
  unfold AddTimeAndCaller, getCaller, error_content. monad_unfold.
  destruct (runtime_Caller env (trace st) d) as [[file line]|];
    cbv beta iota; [rewrite caller_nonempty|]; reflexivity.
Qed.

Lemma outputError_eq (w : option Sink) (msg : string) (d : Z) (st : State) :
  outputError env w msg d st =
  (tt, set_trace
         (trace st ++
          match w with
          | Some s =>
              write_events env (trace st) s (error_content env (trace st) msg d)
          | None => [EvStdPrint (error_content env (trace st) msg d)]
          end)%list st).
Proof.
  unfold outputError. unfold bind at 1. rewrite AddTimeAndCaller_eq.
  unfold sink_Write, Logger_Print, log_Print, log_Println, write_events.
  monad_unfold.
  destruct w as [[l|f r g]|]; simpl; try reflexivity.
  destruct (sink_Write_err env (trace st) (RotateLogger f r g) _); simpl;
    unfold set_trace; simpl; rewrite <- ?app_assoc; reflexivity.
Qed.

Lemma infoSync_eq (msg : string) (st : State) :
  infoSync env msg st =
  output env (if Z.eqb (initialized st) 0 then None else infoLog st) msg st.
Proof.
  unfold infoSync. monad_unfold. now destruct (Z.eqb (initialized st) 0).
Qed.

Lemma slowSync_eq (msg : string) (st : State) :
  slowSync env msg st =
  output env (if Z.eqb (initialized st) 0 then None else slowLog st) msg st.
Proof.
  unfold slowSync. monad_unfold. now destruct (Z.eqb (initialized st) 0).
Qed.

Lemma statSync_eq (msg : string) (st : State) :
  statSync env msg st =
  output env (if Z.eqb (initialized st) 0 then None else statLog st) msg st.
Proof.
  unfold statSync. monad_unfold. now destruct (Z.eqb (initialized st) 0).
Qed.

Lemma errorSync_eq (msg : string) (d : Z) (st : State) :
  errorSync env msg d st =
  outputError env (if Z.eqb (initialized st) 0 then None else errorLog st)
              msg d st.
Proof.
  unfold errorSync. monad_unfold. now destruct (Z.eqb (initialized st) 0).
Qed.

Lemma stackSync_eq (msg : string) (st : State) :
  stackSync env msg st =
  if Z.eqb (initialized st) 0
  then output env None (msg ++ String "010"%char "" ++ debug_Stack env (trace st))
              st
  else (tt, set_trace (trace st ++
                       [EvLessErrorf (stackLog st) msg
                                     (debug_Stack env (trace st))])%list st).
Proof.
  unfold stackSync, LessLogger_Errorf. monad_unfold.
  now destruct (Z.eqb (initialized st) 0).
Qed.

(** A logging call changes nothing but the trace. *)
Lemma logging_globals (op : Op) (st : State) :
  (forall c, op <> OpSetUp c) -> op <> OpClose ->
  step env op st = set_trace (trace (step env op st)) st.
Proof.
  intros Hs Hc. destruct op as [c| |m|m d|m|m|m]; simpl; unfold after.
  - now elim (Hs c).
  - now elim Hc.
  - rewrite infoSync_eq, output_eq. reflexivity.
  - rewrite errorSync_eq, outputError_eq. reflexivity.
  - rewrite slowSync_eq, output_eq. reflexivity.
  - rewrite statSync_eq, output_eq. reflexivity.
  - rewrite stackSync_eq. destruct (Z.eqb (initialized st) 0);
      [rewrite output_eq|]; reflexivity.
Qed.

(** *** The first call that reaches the guarded section *)

Lemma SetUp_first (c : Config) (st : State) :
  LogMode c <> consoleMode -> once st = false -> config_error c = None ->
  exists opts,
    SetUp env c st =
    (let r := setupFiles_once env opts
                (path_Join [log_dir env c st; accessFilename])
                (path_Join [log_dir env c st; errorFilename])
                (path_Join [log_dir env c st; slowFilename])
                (path_Join [log_dir env c st; statFilename]) None st in
     (fst r, set_once true (snd r))).
Proof.
  intros Hm Ho He. unfold SetUp, config_error, log_dir in *.
  apply String.eqb_neq in Hm. rewrite Hm.
  destruct (String.eqb (LogMode c) varMode).
  - destruct (String.eqb (NameSpace c) "") eqn:En; [discriminate|].
    apply String.eqb_neq in En.
    rewrite setupWithVolume_unfold by exact En.
    unfold setupWithFiles. rewrite length_zero_eqb.
    rewrite volume_path_nonempty by exact En.
    eexists. cbv zeta. rewrite once_Do_first by exact Ho. reflexivity.
  - destruct (String.eqb (Path c) "") eqn:Ep; [discriminate|].
    unfold setupWithFiles. rewrite length_zero_eqb, Ep.
    eexists. cbv zeta. rewrite once_Do_first by exact Ho. reflexivity.
Qed.

Lemma config_error_dec (c : Config) :
  config_error c = None \/ config_error c <> None.
Proof. destruct (config_error c); [right; discriminate|now left]. Qed.

(** *** Console setup *)

Lemma setupWithConsole_done (st : State) :
  once st = true -> setupWithConsole st = (tt, set_writeConsole true st).
Proof.
  intros H. unfold setupWithConsole. unfold bind at 1. unfold modify at 1.
  now rewrite once_Do_done.
Qed.

Lemma setupWithConsole_first (st : State) :
  once st = false ->
  setupWithConsole st =
  (tt, mkState true
         (Some (logWriter (log_New Stdout infoPrefix flags)))
         (Some (logWriter (log_New Stderr errorPrefix flags)))
         (Some (logWriter (log_New Stderr slowPrefix flags)))
         (Some (logWriter (log_New Stdout infoPrefix flags)))
         (stackLog st) true 1 (options st) (trace st)).
Proof.
  intros H. unfold setupWithConsole. unfold bind at 1. unfold modify at 1.
  rewrite once_Do_first by exact H. reflexivity.
Qed.

(** *** [Close] *)

Lemma Close_console (st : State) :
  writeConsole st = true -> Close env st = (None, st).
Proof. intros H. unfold Close. monad_unfold. now rewrite H. Qed.

Lemma Close_not_initialized (st : State) :
  writeConsole st = false -> initialized st = 0 ->
  Close env st = (Some ErrLogNotInitialized, st).
Proof. intros H H0. unfold Close. monad_unfold. now rewrite H, H0. Qed.

Lemma Close_clears (st : State) :
  writeConsole st = false ->
  initialized (snd (Close env st)) = 0 /\
  writeConsole (snd (Close env st)) = false /\
  once (snd (Close env st)) = once st.
Proof.
  intros H. unfold Close, closeIfSet, sink_Close. monad_unfold. rewrite H.
  destruct (Z.eqb (initialized st) 0) eqn:E.
  - apply Z.eqb_eq in E. simpl. auto.
  - simpl.
    repeat
      (match goal with
       | |- context [match ?w with Some _ => _ | None => _ end] =>
           match type of w with
           | option Sink => destruct w as [[?|? ? ?]|]
           | option error => destruct w
           end
       end; simpl); auto.
Qed.

(** Closing four rotate loggers: the closes run in the order access, error,
    slow, stat and stop after the first one that fails. *)
Lemma Close_four (st : State) (a e s t : Sink) :
  writeConsole st = false -> initialized st <> 0 ->
  (forall w, In w [a; e; s; t] -> exists f r g, w = RotateLogger f r g) ->
  infoLog st = Some a -> errorLog st = Some e ->
  slowLog st = Some s -> statLog st = Some t ->
  exists k, (1 <= k <= 4)%nat /\
    snd (Close env st) =
      set_trace (trace st ++ map EvSinkClose (firstn k [a; e; s; t]))%list
                (set_initialized 0 st) /\
    (forall j, (j + 1 < k)%nat ->
               close_answer env (trace st) [a; e; s; t] j = None) /\
    fst (Close env st) = close_answer env (trace st) [a; e; s; t] (k - 1) /\
    ((k < 4)%nat -> fst (Close env st) <> None).
Proof.
  intros Hw Hi Hr Ha He Hs Ht.
  destruct (Hr a) as (fa & ra & ga & ->); [simpl; auto|].
  destruct (Hr e) as (fe & re & ge & ->); [simpl; auto|].
  destruct (Hr s) as (fs & rs & gs & ->); [simpl; auto 6|].
  destruct (Hr t) as (ft & rt & gt & ->); [simpl; auto 6|].
  clear Hr. apply Z.eqb_neq in Hi.
  unfold Close, closeIfSet, sink_Close, close_answer. monad_unfold.
  rewrite Hw, Hi. simpl. rewrite Ha. simpl.
  destruct (sink_Close_err env (trace st) (RotateLogger fa ra ga)) eqn:E1;
    simpl; rewrite ?He; simpl.
  { exists 1%nat. simpl. rewrite app_nil_r.
    repeat split; try lia; try congruence. }
  destruct (sink_Close_err env (trace st ++ [EvSinkClose _])%list
                           (RotateLogger fe re ge)) eqn:E2; simpl;
    rewrite ?Hs; simpl.
  { exists 2%nat. simpl. rewrite <- ?app_assoc. simpl.
    repeat split; try lia; try congruence.
    intros j Hj. assert (j = 0)%nat as -> by lia. simpl.
    now rewrite app_nil_r. }
  destruct (sink_Close_err env ((trace st ++ [EvSinkClose _]) ++ [_])%list
                           (RotateLogger fs rs gs)) eqn:E3; simpl;
    rewrite ?Ht; simpl.
  { exists 3%nat. simpl. rewrite <- ?app_assoc in *. simpl in *.
    repeat split; try lia; try congruence.
    intros j Hj. destruct j as [|[|j]]; try lia; simpl;
      rewrite ?app_nil_r; assumption. }
  exists 4%nat. simpl. rewrite <- ?app_assoc in *. simpl in *.
  destruct (sink_Close_err env _ (RotateLogger ft rt gt)) eqn:E4; simpl;
  (repeat split; try lia; try congruence);
  intros j Hj; destruct j as [|[|[|j]]]; try lia; simpl;
    rewrite ?app_nil_r; assumption.
Qed.

(** *** What one [SetUp] does *)

Lemma SetUp_console (c : Config) (st : State) :
  LogMode c = consoleMode ->
  SetUp env c st = (None, snd (setupWithConsole st)).
Proof.
  intros H. unfold SetUp. rewrite H, String.eqb_refl. unfold bind, ret.
  now destruct (setupWithConsole st).
Qed.

Lemma SetUp_files_summary (c : Config) (st : State) :
  LogMode c <> consoleMode ->
  let r := SetUp env c st in
  writeConsole (snd r) = writeConsole st /\
  (once st = true -> snd r = st) /\
  (config_error c = None -> once (snd r) = true) /\
  (snd r = st \/
   (once st = false /\ once (snd r) = true /\
    ((exists e, fst r = Some e /\ initialized (snd r) = initialized st) \/
     (fst r = None /\ initialized (snd r) = 1 /\
      infoLog (snd r) =
        Some (fileSink (options (snd r))
                       (path_Join [log_dir env c st; accessFilename])) /\
      errorLog (snd r) =
        Some (fileSink (options (snd r))
                       (path_Join [log_dir env c st; errorFilename])) /\
      slowLog (snd r) =
        Some (fileSink (options (snd r))
                       (path_Join [log_dir env c st; slowFilename])) /\
      statLog (snd r) =
        Some (fileSink (options (snd r))
                       (path_Join [log_dir env c st; statFilename])))))).
Proof.
  intros Hm. cbv zeta.
  destruct (once st) eqn:Ho.
  - rewrite SetUp_done by assumption. simpl. repeat split; auto.
  - destruct (config_error_dec c) as [He|He].
    + destruct (SetUp_first c st Hm Ho He) as [opts ->]. cbv zeta.
      pose proof (setupFiles_once_cases opts
                    (path_Join [log_dir env c st; accessFilename])
                    (path_Join [log_dir env c st; errorFilename])
                    (path_Join [log_dir env c st; slowFilename])
                    (path_Join [log_dir env c st; statFilename]) None st)
        as Hc.
      cbv zeta in Hc.
      destruct (setupFiles_once env opts _ _ _ _ None st) as [r st'].
      simpl in *. destruct Hc as (Hw & _ & Hc).
      repeat split; auto; try discriminate.
    + rewrite SetUp_config_error by assumption. simpl.
      repeat split; auto; try discriminate.
Qed.

(** *** Invariants of a run *)

Lemma step_once (op : Op) (st : State) :
  once st = true -> once (step env op st) = true.
Proof.
  intros H.
  destruct op as [c| |m|m d|m|m|m];
    try (rewrite logging_globals by (intros; discriminate); exact H).
  - simpl. unfold after.
    destruct (String.eqb (LogMode c) consoleMode) eqn:Em.
    + apply String.eqb_eq in Em. rewrite SetUp_console by exact Em.
      now rewrite setupWithConsole_done.
    + apply String.eqb_neq in Em. now rewrite SetUp_done.
  - simpl. unfold after. destruct (writeConsole st) eqn:Ew.
    + now rewrite Close_console.
    + destruct (Close_clears st Ew) as (_ & _ & ->). exact H.
Qed.

Lemma step_writeConsole (op : Op) (st : State) :
  writeConsole st = true -> writeConsole (step env op st) = true.
Proof.
  intros H.
  destruct op as [c| |m|m d|m|m|m];
    try (rewrite logging_globals by (intros; discriminate); exact H).
  - simpl. unfold after.
    destruct (String.eqb (LogMode c) consoleMode) eqn:Em.
    + apply String.eqb_eq in Em. rewrite SetUp_console by exact Em.
      destruct (once st) eqn:Ho;
        [rewrite setupWithConsole_done|rewrite setupWithConsole_first];
        auto.
    + apply String.eqb_neq in Em.
      destruct (SetUp_files_summary c st Em) as (-> & _). exact H.
  - simpl. unfold after. now rewrite Close_console.
Qed.

Lemma step_ready_inv (op : Op) (st : State) :
  ready_inv st -> ready_inv (step env op st).
Proof.
  intros H.
  destruct op as [c| |m|m d|m|m|m];
    try (rewrite logging_globals by (intros; discriminate); exact H).
  - simpl. unfold after.
    destruct (String.eqb (LogMode c) consoleMode) eqn:Em.
    + apply String.eqb_eq in Em. rewrite SetUp_console by exact Em.
      destruct (once st) eqn:Ho.
      * rewrite setupWithConsole_done by exact Ho. exact H.
      * rewrite setupWithConsole_first by exact Ho.
        intros _. simpl. repeat split; discriminate.
    + apply String.eqb_neq in Em.
      destruct (SetUp_files_summary c st Em) as (_ & _ & _ & [-> | Hc]);
        [exact H|].
      destruct Hc as (Ho & Ho' & [(e & _ & Hi) | (_ & _ & Ha & He & Hs & Ht)]).
      * intros Hn. rewrite Hi in Hn. apply H in Hn. destruct Hn as [Hn _].
        congruence.
      * intros _. rewrite Ha, He, Hs, Ht. repeat split; auto; discriminate.
  - simpl. unfold after. destruct (writeConsole st) eqn:Ew.
    + now rewrite Close_console.
    + destruct (Close_clears st Ew) as (Hz & _). intros Hn. contradiction.
Qed.

Lemma run_app (ops ops' : list Op) (st : State) :
  run env (ops ++ ops') st = run env ops' (run env ops st).
Proof. unfold run. apply fold_left_app. Qed.

Lemma run_ready_inv (ops : list Op) (st : State) :
  ready_inv st -> ready_inv (run env ops st).
Proof.
  revert st. induction ops as [|op ops IH]; intros st H; simpl; [exact H|].
  apply IH. now apply step_ready_inv.
Qed.

Lemma run_once (ops : list Op) (st : State) :
  once st = true -> once (run env ops st) = true.
Proof.
  revert st. induction ops as [|op ops IH]; intros st H; simpl; [exact H|].
  apply IH. now apply step_once.
Qed.

Lemma run_writeConsole (ops : list Op) (st : State) :
  writeConsole st = true -> writeConsole (run env ops st) = true.
Proof.
  revert st. induction ops as [|op ops IH]; intros st H; simpl; [exact H|].
  apply IH. now apply step_writeConsole.
Qed.

Lemma step_console_ready (op : Op) (st : State) :
  console_ready st -> console_ready (step env op st).
Proof.
  intros H. pose proof H as (Hw & Ho & Hi & Ha & He & Hs & Ht).
  destruct op as [c| |m|m d|m|m|m];
    try (rewrite logging_globals by (intros; discriminate); exact H).
  - simpl. unfold after.
    destruct (String.eqb (LogMode c) consoleMode) eqn:Em.
    + apply String.eqb_eq in Em. rewrite SetUp_console by exact Em.
      rewrite setupWithConsole_done by exact Ho.
      unfold console_ready. simpl. repeat split; assumption.
    + apply String.eqb_neq in Em. now rewrite SetUp_done.
  - simpl. unfold after. now rewrite Close_console.
Qed.

Lemma run_console_ready (ops : list Op) (st : State) :
  console_ready st -> console_ready (run env ops st).
Proof.
  revert st. induction ops as [|op ops IH]; intros st H; simpl; [exact H|].
  apply IH. now apply step_console_ready.
Qed.

Lemma init_ready_inv : ready_inv init.
Proof. intros H. now elim H. Qed.

End Properties.

(** * The claims *)

(** ** Configuration errors *)

(** C5: in namespaced-volume mode with an empty namespace, [SetUp] returns
    the "namespace not set" error [ErrLogNameSpaceNotSet] and leaves the
    whole state as it was: no sink is created, nothing is traced. *)
Theorem SetUp_volume_empty_namespace (env : Env) (c : Config) (st : State) :
  LogMode c = varMode -> NameSpace c = "" ->
  SetUp env c st = (Some ErrLogNameSpaceNotSet, st).
Proof.
  intros Hm Hn. unfold SetUp, setupWithVolume. rewrite Hm, Hn. reflexivity.
Qed.

Lemma SetUp_volume_empty_namespace_witness :
  SetUp env_ok (mkConfig "" "var" "/data" false 7 100) init
  = (Some ErrLogNameSpaceNotSet, init).
Proof.
  apply (SetUp_volume_empty_namespace env_ok
           (mkConfig "" "var" "/data" false 7 100) init); reflexivity.
Defined.

(** C6: in direct-file mode (the mode is neither console nor volume) with an
    empty path, [SetUp] returns the "path not set" error [ErrLogPathNotSet]
    and leaves the whole state as it was. *)
Theorem SetUp_file_empty_path (env : Env) (c : Config) (st : State) :
  LogMode c <> consoleMode -> LogMode c <> varMode -> Path c = "" ->
  SetUp env c st = (Some ErrLogPathNotSet, st).
Proof.
  intros Hc Hv Hp. unfold SetUp, setupWithFiles.
  apply String.eqb_neq in Hc, Hv. rewrite Hc, Hv, Hp. reflexivity.
Qed.

Lemma SetUp_file_empty_path_witness :
  SetUp env_ok (mkConfig "shop" "file" "" true 3 100) init
  = (Some ErrLogPathNotSet, init).
Proof.
  apply (SetUp_file_empty_path env_ok
           (mkConfig "shop" "file" "" true 3 100) init);
    simpl; solve [discriminate | reflexivity].
Defined.

(** ** The host name *)

(** C7: when [os.Hostname] answers [(name, err)], [getHostname] gives the
    fixed default ["log4g"] if [err] is not nil or [name] is empty, and
    [name] otherwise, without changing the state; volume-mode [SetUp] is
    file setup at the path joined from the configured path, the namespace
    and that host name, so the resolution error never reaches the caller. *)
Theorem getHostname_fallback (env : Env) (c : Config) (st : State)
        (name : string) (err : option error) :
  os_Hostname env (trace st) = (name, err) ->
  LogMode c = varMode -> NameSpace c <> "" ->
  exists host,
    getHostname env st = (host, st) /\
    (err <> None \/ name = "" -> host = defaultHostName) /\
    (err = None -> name <> "" -> host = name) /\
    SetUp env c st =
    setupWithFiles env
      (with_Path (path_Join [Path c; NameSpace c; host]) c) st.
Proof.
  intros Hh Hm Hn.
  assert (Hg : exists host,
             getHostname env st = (host, st) /\
             (err <> None \/ name = "" -> host = defaultHostName) /\
             (err = None -> name <> "" -> host = name)).
  { unfold getHostname. monad_unfold. rewrite Hh.
    destruct err as [e|].
    - exists defaultHostName. repeat split; auto; discriminate.
    - rewrite length_zero_eqb. destruct (String.eqb name "") eqn:E.
      + exists defaultHostName. apply String.eqb_eq in E.
        repeat split; auto. intros _ Hne. now elim Hne.
      + exists name. apply String.eqb_neq in E. repeat split; auto.
        intros [H|H]; [now elim H | now elim E]. }
  destruct Hg as (host & Hg & Hd & Hk).
  exists host. repeat split; auto.
  unfold SetUp. rewrite Hm. simpl.
  rewrite setupWithVolume_unfold by exact Hn. now rewrite Hg.
Qed.

Lemma getHostname_fallback_witness :
  getHostname env_no_host init = (defaultHostName, init) /\
  getHostname env_ok init = ("node-7", init) /\
  SetUp env_no_host volume_config init =
  setupWithFiles env_no_host (with_Path "/data/shop/log4g" volume_config) init.
Proof.
  destruct (getHostname_fallback env_no_host volume_config init ""
              (Some (ErrExternal "hostname: not available")))
    as (h & Hg & Hd & _ & Hs); try reflexivity; try discriminate.
  destruct (getHostname_fallback env_ok volume_config init "node-7" None)
    as (h' & Hg' & _ & Hk & _); try reflexivity; try discriminate.
  rewrite Hd in Hg, Hs by (left; discriminate).
  rewrite Hk in Hg' by (reflexivity || discriminate).
  repeat split; assumption.
Defined.

(** ** Repeated setup *)

(** C1, as stated, fails: the log directory cannot be written, the first
    [SetUp] returns the error of [NewLogger], and the second call with the
    same configuration returns nil. *)
Lemma SetUp_repeat_counterexample :
  let first := SetUp env_open_fails file_config init in
  let second := SetUp env_open_fails file_config (snd first) in
  fst first = Some (ErrExternal "permission denied") /\
  fst second = None /\
  fst second <> fst first.
Proof. vm_compute. repeat split; discriminate. Qed.

(** C1, amended: the guarded sink-creation runs at most once.  After a
    first file- or volume-mode [SetUp] whose configuration passes the path
    and namespace checks, whatever that call returned, every later file- or
    volume-mode [SetUp] (after any other calls) changes no state, creates no
    sink, and returns only the result of its own configuration checks; so a
    later caller with the same configuration observes nil, which is the
    first call's outcome when the first call succeeded. *)
Theorem SetUp_guard_runs_once (env : Env) (c : Config) (st : State)
        (ops : list Op) :
  LogMode c <> consoleMode ->
  let st1 := after (SetUp env c) st in
  let st2 := run env ops st1 in
  (config_error c = None ->
   once st1 = true /\
   forall c', LogMode c' <> consoleMode ->
              SetUp env c' st2 = (config_error c', st2)) /\
  (result (SetUp env c) st = None -> SetUp env c st2 = (None, st2)).
Proof.
  intros Hm st1 st2.
  assert (H1 : config_error c = None ->
               once st1 = true /\
               forall c', LogMode c' <> consoleMode ->
                          SetUp env c' st2 = (config_error c', st2)).
  { intros He.
    destruct (SetUp_files_summary env c st Hm) as (_ & _ & Ho & _).
    specialize (Ho He). split; [exact Ho|].
    intros c' Hm'. apply SetUp_done; [exact Hm'|].
    now apply run_once. }
  split; [exact H1|].
  intros Hr.
  assert (He : config_error c = None).
  { destruct (config_error_dec c) as [He|He]; [exact He|].
    unfold result in Hr. rewrite SetUp_config_error in Hr by assumption.
    exact Hr. }
  destruct (H1 He) as [_ H2]. rewrite <- He. now apply H2.
Qed.

Lemma SetUp_guard_runs_once_witness :
  let st1 := after (SetUp env_open_fails file_config) init in
  let st2 := run env_open_fails [OpInfo "retry"] st1 in
  once st1 = true /\
  SetUp env_open_fails volume_config st2 = (None, st2) /\
  (let st1 := after (SetUp env_ok file_config) init in
   SetUp env_ok file_config st1 = (None, st1)).
Proof.
  destruct (SetUp_guard_runs_once env_open_fails file_config init
              [OpInfo "retry"]) as [H _]; [discriminate|].
  destruct H as [Ho Hl]; [reflexivity|].
  destruct (SetUp_guard_runs_once env_ok file_config init [])
    as [_ H']; [discriminate|].
  split; [exact Ho|split].
  - apply (Hl volume_config). discriminate.
  - apply H'. reflexivity.
Defined.

(** ** Shutdown *)

(** C2, as stated, fails: after a successful file-mode setup, closing the
    access log fails; [Close] returns that error and the trace gains the
    close of the access log only: the error, slow and stat logs are not
    closed. *)
Lemma Close_stops_counterexample :
  let st := after (SetUp env_close_fails file_config) init in
  result (SetUp env_close_fails file_config) init = None /\
  result (Close env_close_fails) st = Some (ErrExternal "sync failed") /\
  trace (after (Close env_close_fails) st) =
  (trace st ++
   [EvSinkClose (fileSink (options st) "/var/log/app/access.log")])%list /\
  ~ In (EvSinkClose (fileSink (options st) "/var/log/app/stat.log"))
       (trace (after (Close env_close_fails) st)).
Proof.
  vm_compute. repeat split.
  intros H. repeat (destruct H as [H|H]; [discriminate H|]). exact H.
Qed.

(** C2, amended: after a successful file- or volume-mode setup of a fresh
    process, [Close] lowers the flag and closes the sinks in the fixed order
    access, error, slow, stat, stopping after the first close that fails: it
    attempts [k] closes, the first [k - 1] succeed, it returns what the
    [k]-th close returned, and [k = 4] unless that close failed.  So it
    returns the first error met, nil if all four closes succeed, and the
    sinks after a failing one are not closed. *)
Theorem Close_stops_at_first_error (env : Env) (c : Config) (st : State) :
  LogMode c <> consoleMode ->
  writeConsole st = false -> once st = false ->
  result (SetUp env c) st = None ->
  let st1 := after (SetUp env c) st in
  let ws :=
    [fileSink (options st1) (path_Join [log_dir env c st; accessFilename]);
     fileSink (options st1) (path_Join [log_dir env c st; errorFilename]);
     fileSink (options st1) (path_Join [log_dir env c st; slowFilename]);
     fileSink (options st1) (path_Join [log_dir env c st; statFilename])] in
  [infoLog st1; errorLog st1; slowLog st1; statLog st1] = map Some ws /\
  exists k, (1 <= k <= 4)%nat /\
    after (Close env) st1 =
      set_trace (trace st1 ++ map EvSinkClose (firstn k ws))%list
                (set_initialized 0 st1) /\
    (forall j, (j + 1 < k)%nat -> close_answer env (trace st1) ws j = None) /\
    result (Close env) st1 = close_answer env (trace st1) ws (k - 1) /\
    ((k < 4)%nat -> result (Close env) st1 <> None).
Proof.
  intros Hm Hw Ho Hr. cbv zeta. unfold after, result in *.
  destruct (SetUp_files_summary env c st Hm) as (Hw' & _ & _ & Hc).
  destruct Hc as [Hc | (_ & Ho' & [(e & He & _) | (_ & Hi & Ha & He & Hs & Ht)])].
  - destruct (config_error_dec c) as [Hce|Hce].
    + destruct (SetUp_files_summary env c st Hm) as (_ & _ & Hon & _).
      specialize (Hon Hce). rewrite Hc in Hon. congruence.
    + rewrite SetUp_config_error in Hr by assumption. simpl in Hr.
      contradiction.
  - congruence.
  - split; [simpl; now rewrite Ha, He, Hs, Ht|].
    apply (Close_four env (snd (SetUp env c st))); try assumption.
    + congruence.
    + rewrite Hi. discriminate.
    + intros w Hin. unfold fileSink in Hin. simpl in Hin.
      destruct Hin as [<-|[<-|[<-|[<-|[]]]]]; eauto.
Qed.

Lemma Close_stops_at_first_error_witness :
  let st1 := after (SetUp env_close_fails file_config) init in
  exists k, (1 <= k <= 4)%nat /\
    trace (after (Close env_close_fails) st1) =
      (trace st1 ++
       map EvSinkClose
         (firstn k
            [fileSink (options st1) "/var/log/app/access.log";
             fileSink (options st1) "/var/log/app/error.log";
             fileSink (options st1) "/var/log/app/slow.log";
             fileSink (options st1) "/var/log/app/stat.log"]))%list.
Proof.
  destruct (Close_stops_at_first_error env_close_fails file_config init)
    as (_ & k & Hk & Ha & _); try reflexivity; try discriminate.
  exists k. split; [exact Hk|].
  cbv zeta. rewrite Ha. reflexivity.
Defined.

(** C3, as stated, fails: [Close] before any setup returns
    [ErrLogNotInitialized], not nil, and so does a second [Close] after a
    first one that succeeded. *)
Lemma Close_twice_counterexample :
  let st := after (SetUp env_ok file_config) init in
  result (Close env_ok) init = Some ErrLogNotInitialized /\
  result (Close env_ok) st = None /\
  result (Close env_ok) (after (Close env_ok) st) = Some ErrLogNotInitialized.
Proof. vm_compute. repeat split. Qed.

(** C3, amended: outside console mode, [Close] returns the "log not
    initialized" error [ErrLogNotInitialized] and changes nothing when the
    readiness flag is down, which is the case before any setup has completed
    and after a first [Close]; so a second [Close] returns that error. *)
Theorem Close_not_ready (env : Env) (st : State) :
  writeConsole st = false ->
  Close env init = (Some ErrLogNotInitialized, init) /\
  (initialized st = 0 -> Close env st = (Some ErrLogNotInitialized, st)) /\
  Close env (after (Close env) st) =
  (Some ErrLogNotInitialized, after (Close env) st).
Proof.
  intros Hw. split; [|split].
  - now apply Close_not_initialized.
  - intros Hi. now apply Close_not_initialized.
  - destruct (Close_clears env st Hw) as (Hi & Hw' & _).
    now apply Close_not_initialized.
Qed.

Lemma Close_not_ready_witness :
  let st := after (SetUp env_ok file_config) init in
  Close env_ok (after (Close env_ok) st) =
  (Some ErrLogNotInitialized, after (Close env_ok) st).
Proof.
  destruct (Close_not_ready env_ok (after (SetUp env_ok file_config) init))
    as (_ & _ & H); [reflexivity|exact H].
Defined.

(** ** The readiness flag *)

(** C4, as stated, fails: after a successful file-mode setup the flag is 1,
    and [Close] writes it back to 0. *)
Lemma Close_lowers_flag_counterexample :
  let st := after (SetUp env_ok file_config) init in
  initialized st = 1 /\ initialized (after (Close env_ok) st) = 0.
Proof. vm_compute. split; reflexivity. Qed.

(** C4, amended: [SetUp] leaves the readiness flag as it is or sets it to
    ready, and never writes it back to not-ready; the logging call sites only
    read it; [Close] leaves it alone in console mode and, outside console
    mode, is the one operation that writes it back to not-ready. *)
Theorem flag_writers (env : Env) (st : State) :
  (forall c, initialized (after (SetUp env c) st) = initialized st \/
             initialized (after (SetUp env c) st) = 1) /\
  (forall op, (forall c, op <> OpSetUp c) -> op <> OpClose ->
              initialized (step env op st) = initialized st) /\
  (writeConsole st = true ->
   initialized (after (Close env) st) = initialized st) /\
  (writeConsole st = false -> initialized (after (Close env) st) = 0).
Proof.
  repeat split.
  - intros c. unfold after.
    destruct (String.eqb (LogMode c) consoleMode) eqn:Em.
    + apply String.eqb_eq in Em. rewrite SetUp_console by exact Em.
      destruct (once st) eqn:Ho.
      * rewrite setupWithConsole_done by exact Ho. now left.
      * rewrite setupWithConsole_first by exact Ho. now right.
    + apply String.eqb_neq in Em.
      destruct (SetUp_files_summary env c st Em)
        as (_ & _ & _ & [-> | (_ & _ & [(e & _ & Hi) | (_ & Hi & _)])]);
        auto.
  - intros op Hs Hc. now rewrite logging_globals.
  - intros Hw. unfold after. now rewrite Close_console.
  - intros Hw. unfold after. now destruct (Close_clears env st Hw).
Qed.

Lemma flag_writers_witness :
  let st := after (SetUp env_ok file_config) init in
  initialized (step env_ok (OpInfo "started") st) = initialized st /\
  initialized (after (Close env_ok) st) = 0 /\
  (let st := after (SetUp env_ok console_config) init in
   initialized (after (Close env_ok) st) = initialized st).
Proof.
  destruct (flag_writers env_ok (after (SetUp env_ok file_config) init))
    as (_ & Hl & _ & Hc).
  destruct (flag_writers env_ok (after (SetUp env_ok console_config) init))
    as (_ & _ & Hk & _).
  split; [apply Hl; discriminate|].
  split; [apply Hc; reflexivity|apply Hk; reflexivity].
Defined.

(** ** Console mode *)

(** C9: after a console-mode [SetUp], whatever calls follow, every [Close]
    returns nil and leaves the whole state as it was: no sink is closed,
    nothing is traced, the readiness flag is untouched; so every call made
    after the [Close] behaves as it would have before it. *)
Theorem Close_console_noop (env : Env) (c : Config) (st : State)
        (ops : list Op) :
  LogMode c = consoleMode ->
  let st1 := run env ops (after (SetUp env c) st) in
  Close env st1 = (None, st1) /\
  forall op, step env op (after (Close env) st1) = step env op st1.
Proof.
  intros Hm st1.
  assert (Hw : writeConsole st1 = true).
  { apply run_writeConsole. unfold after.
    rewrite SetUp_console by exact Hm.
    destruct (once st) eqn:Ho;
      [rewrite setupWithConsole_done|rewrite setupWithConsole_first];
      auto. }
  assert (Hc : Close env st1 = (None, st1)) by now apply Close_console.
  split; [exact Hc|].
  intros op. unfold after. now rewrite Hc.
Qed.

Lemma Close_console_noop_witness :
  let st1 :=
    run env_ok [OpInfo "a"; OpClose; OpStat "b"]
        (after (SetUp env_ok console_config) init) in
  Close env_ok st1 = (None, st1).
Proof.
  destruct (Close_console_noop env_ok console_config init
              [OpInfo "a"; OpClose; OpStat "b"]) as [H _];
    [reflexivity|exact H].
Defined.

(** C10: when console-mode [SetUp] is the setup that fires the guard, then,
    whatever calls follow, the stat sink is the info sink, the console
    writer on standard output with the info prefix; a Stat message does
    exactly what an Info message with the same payload does: one write to
    standard output of the info prefix, the time, a space and the message
    (and a newline if the message does not end in one). *)
Theorem console_stat_is_info (env : Env) (c : Config) (st : State)
        (ops : list Op) (msg : string) :
  LogMode c = consoleMode -> once st = false ->
  let st1 := run env ops (after (SetUp env c) st) in
  let line := time_Now env (trace st1) ++ " " ++ msg in
  statLog st1 = infoLog st1 /\
  infoLog st1 = Some (logWriter (log_New Stdout infoPrefix flags)) /\
  statSync env msg st1 = infoSync env msg st1 /\
  statSync env msg st1 =
  (tt, set_trace
         (trace st1 ++
          [EvStream Stdout
             (infoPrefix ++ line
              ++ (if endsWithNewline line then "" else String "010"%char ""))])%list
         st1).
Proof.
  intros Hm Ho st1 line.
  assert (Hr : console_ready st1).
  { apply run_console_ready. unfold after.
    rewrite SetUp_console by exact Hm.
    rewrite setupWithConsole_first by exact Ho.
    unfold console_ready. simpl. repeat split. }
  destruct Hr as (_ & _ & Hi & Ha & _ & _ & Ht).
  split; [exact Ht|]. split; [exact Ha|].
  rewrite statSync_eq, infoSync_eq, Ht, Hi. simpl.
  split; [reflexivity|].
  rewrite output_eq, Ha. reflexivity.
Qed.

Lemma console_stat_is_info_witness :
  let st1 := after (SetUp env_ok console_config) init in
  statSync env_ok "orders=3" st1 = infoSync env_ok "orders=3" st1 /\
  trace (after (statSync env_ok "orders=3") st1) =
  [EvStream Stdout
     ("[INFO] 2024-05-01 10:00:00.000 orders=3" ++ String "010"%char "")].
Proof.
  destruct (console_stat_is_info env_ok console_config init [] "orders=3")
    as (_ & _ & He & Hs); try reflexivity.
  split; [exact He|].
  exact (f_equal (fun r => trace (snd r)) Hs).
Defined.

(** ** The logging call sites *)



(** * Further properties of the package *)

(** ** [getCaller]: the short file name *)

Lemma afterLastSlash_none (s : string) :
  afterLastSlash s = None <-> no_slash s = true.
Proof.
  induction s as [|c r IH]; simpl; [tauto|].
  destruct (afterLastSlash r) as [t|].
  - split; [discriminate|]. intros H. apply andb_true_iff in H.
    destruct H as [_ H]. apply IH in H. discriminate.
  - destruct (Ascii.eqb c slash); simpl; [split; discriminate|].
    split; intros _; [now apply IH|reflexivity].
Qed.

Lemma afterLastSlash_some (s t : string) :
  afterLastSlash s = Some t ->
  no_slash t = true /\ exists pre, s = pre ++ String slash t.
Proof.
  revert t. induction s as [|c r IH]; simpl; intros t H; [discriminate|].
  destruct (afterLastSlash r) as [t'|] eqn:E.
  - injection H as <-. destruct (IH t' eq_refl) as [Hn [pre ->]].
    split; [exact Hn|]. now exists (String c pre).
  - destruct (Ascii.eqb c slash) eqn:Ec; [|discriminate].
    injection H as <-. apply Ascii.eqb_eq in Ec. subst c.
    split; [now apply afterLastSlash_none|]. now exists "".
Qed.

Lemma afterLastSlash_app (pre base : string) :
  no_slash base = true ->
  afterLastSlash (pre ++ String slash base) = Some base.
Proof.
  intros Hb. induction pre as [|c r IH]; simpl.
  - apply afterLastSlash_none in Hb. now rewrite Hb.
  - now rewrite IH.
Qed.

(** X1: for a file path with a non-empty directory part, a slash and a
    slash-free base name, [getCaller]'s short name is the base name. *)
Theorem shortFile_base (dir base : string) :
  dir <> "" -> no_slash base = true ->
  shortFile (dir ++ "/" ++ base) = base.
Proof.
  intros Hd Hb. destruct dir as [|c r]; [now elim Hd|].
  simpl. change (String "/" base) with (String slash base).
  now rewrite afterLastSlash_app.
Qed.

Lemma shortFile_base_witness :
  shortFile ("/go/src/shop" ++ "/" ++ "main.go") = "main.go".
Proof.
  apply (shortFile_base "/go/src/shop" "main.go");
    [discriminate|reflexivity].
Defined.

(** X2: the loop of [getCaller] stops at index 1, so a slash at index 0 is
    not a separator: a file name whose only slash (if any) is its first
    character is kept whole. *)
Theorem shortFile_leading_slash_kept (c : ascii) (r : string) :
  no_slash r = true -> shortFile (String c r) = String c r.
Proof.
  intros H. simpl. apply afterLastSlash_none in H. now rewrite H.
Qed.

Lemma shortFile_leading_slash_kept_witness :
  shortFile "/main.go" = "/main.go".
Proof.
  apply (shortFile_leading_slash_kept "/"%char "main.go"). reflexivity.
Defined.

(** X3: the short name is always a suffix of the file path, and it is
    either the whole path or free of slashes. *)
Theorem shortFile_suffix (file : string) :
  (exists pre, file = pre ++ shortFile file) /\
  (shortFile file = file \/ no_slash (shortFile file) = true).
Proof.
  destruct file as [|c r]; simpl.
  - split; [now exists ""|now left].
  - destruct (afterLastSlash r) as [t|] eqn:E.
    + destruct (afterLastSlash_some r t E) as [Hn [pre ->]].
      split; [|now right].
      exists (String c pre ++ String slash ""). simpl. f_equal.
      clear E. induction pre as [|a p IH]; simpl; [reflexivity|].
      now rewrite IH.
    + split; [now exists ""|now left].
Qed.

(** X4: when [runtime.Caller] does not know the caller, [getCaller] gives
    the empty string and [AddTimeAndCaller] builds what [AddTime] builds:
    the time, one space and the message, with no empty caller field. *)
Theorem AddTimeAndCaller_no_caller (env : Env) (msg : string) (d : Z)
        (st : State) :
  runtime_Caller env (trace st) d = None ->
  getCaller env d st = ("", st) /\
  AddTimeAndCaller env msg d st = AddTime env msg st.
Proof.
  intros H. unfold AddTimeAndCaller, AddTime, getCaller. monad_unfold.
  rewrite H. split; reflexivity.
Qed.

Lemma AddTimeAndCaller_no_caller_witness :
  AddTimeAndCaller
    (mkEnv (os_Hostname env_ok) (time_Now env_ok) (fun _ _ => None)
           (debug_Stack env_ok) (NewLogger_err env_ok)
           (sink_Write_err env_ok) (sink_Close_err env_ok))
    "boom" 6 init
  = ("2024-05-01 10:00:00.000 boom", init).
Proof.
  destruct (AddTimeAndCaller_no_caller
              (mkEnv (os_Hostname env_ok) (time_Now env_ok) (fun _ _ => None)
                     (debug_Stack env_ok) (NewLogger_err env_ok)
                     (sink_Write_err env_ok) (sink_Close_err env_ok))
              "boom" 6 init) as [_ H]; [reflexivity|].
  rewrite H. reflexivity.
Defined.

(** ** The guarded section of [setupWithFiles] *)

Lemma SetUp_first_explicit (env : Env) (c : Config) (st : State) :
  LogMode c <> consoleMode -> once st = false -> config_error c = None ->
  SetUp env c st =
  (let r := setupFiles_once env (file_options c)
              (path_Join [log_dir env c st; accessFilename])
              (path_Join [log_dir env c st; errorFilename])
              (path_Join [log_dir env c st; slowFilename])
              (path_Join [log_dir env c st; statFilename]) None st in
   (fst r, set_once true (snd r))).
Proof.
  intros Hm Ho He. unfold SetUp, config_error, log_dir in *.
  apply String.eqb_neq in Hm. rewrite Hm.
  destruct (String.eqb (LogMode c) varMode).
  - destruct (String.eqb (NameSpace c) "") eqn:En; [discriminate|].
    apply String.eqb_neq in En.
    rewrite setupWithVolume_unfold by exact En.
    unfold setupWithFiles. rewrite length_zero_eqb.
    rewrite volume_path_nonempty by exact En.
    cbv zeta. rewrite once_Do_first by exact Ho. reflexivity.
  - destruct (String.eqb (Path c) "") eqn:Ep; [discriminate|].
    unfold setupWithFiles. rewrite length_zero_eqb, Ep.
    cbv zeta. rewrite once_Do_first by exact Ho. reflexivity.
Qed.

Lemma log_file_nonempty (dir name : string) :
  name <> "" -> (String.length (path_Join [dir; name]) =? 0)%nat = false.
Proof.
  intros H. rewrite length_zero_eqb. apply String.eqb_neq.
  apply path_Join_nonempty. exists name. split; [simpl; auto|exact H].
Qed.

Lemma file_options_apply (c : Config) (o : logOptions) :
  let o' := fold_left (fun o opt => applyOption opt o) (file_options c) o in
  logStackCoolDownMills o' = StackCoolDownMillis c /\
  gzipEnabled o' = (gzipEnabled o || Compress c)%bool /\
  keepDays o' = (if Z.ltb 0 (KeepDays c) then KeepDays c else keepDays o).
Proof.
  unfold file_options.
  destruct (Compress c), (Z.ltb 0 (KeepDays c)); simpl;
    repeat split; auto using orb_true_r, orb_false_r;
    symmetry; auto using orb_true_r, orb_false_r.
Qed.

(** The guarded section on four non-empty file names: it makes the loggers
    in order and stops after the first [NewLogger] that fails. *)
Lemma setupFiles_once_steps (env : Env) (opts : list LogOption)
      (fa fe fs ft : string) (err0 : option error) (st : State) :
  (String.length fa =? 0)%nat = false -> (String.length fe =? 0)%nat = false ->
  (String.length fs =? 0)%nat = false -> (String.length ft =? 0)%nat = false ->
  let r := setupFiles_once env opts fa fe fs ft err0 st in
  let o := fold_left (fun o opt => applyOption opt o) opts (options st) in
  options (snd r) = o /\
  (fst r = None ->
   stackLog (snd r) = Some (NewLessLogger (logStackCoolDownMills o))) /\
  (fst r <> None -> stackLog (snd r) = stackLog st) /\
  exists k, (1 <= k <= 4)%nat /\
    trace (snd r) =
      (trace st ++ map (create_event o) (firstn k [fa; fe; fs; ft]))%list /\
    (forall j, (j + 1 < k)%nat ->
               create_answer env (trace st) o [fa; fe; fs; ft] j = None) /\
    fst r = create_answer env (trace st) o [fa; fe; fs; ft] (k - 1) /\
    ((k < 4)%nat -> fst r <> None).
Proof.
  intros Ha He Hs Ht.
  unfold setupFiles_once, createOutput, NewLogger, handleOptions,
    create_answer, create_event.
  monad_unfold. cbv zeta. rewrite Ha, He, Hs, Ht. simpl.
  destruct (NewLogger_err env (trace st) fa _ _) eqn:E1; simpl.
  { split; [reflexivity|]. split; [discriminate|]. split; [reflexivity|].
    exists 1%nat. simpl. rewrite app_nil_r.
    repeat split; try lia; try congruence. }
  destruct (NewLogger_err env (trace st ++ [_])%list fe _ _) eqn:E2; simpl.
  { split; [reflexivity|]. split; [discriminate|]. split; [reflexivity|].
    exists 2%nat. simpl. rewrite <- ?app_assoc. simpl.
    repeat split; try lia; try congruence.
    intros j Hj. assert (j = 0)%nat as -> by lia. simpl.
    now rewrite app_nil_r. }
  destruct (NewLogger_err env ((trace st ++ [_]) ++ [_])%list fs _ _) eqn:E3;
    simpl.
  { split; [reflexivity|]. split; [discriminate|]. split; [reflexivity|].
    exists 3%nat. simpl. rewrite <- ?app_assoc in *. simpl in *.
    repeat split; try lia; try congruence.
    intros j Hj. destruct j as [|[|j]]; try lia; simpl;
      rewrite ?app_nil_r; assumption. }
  destruct (NewLogger_err env (((trace st ++ [_]) ++ [_]) ++ [_])%list ft _ _)
    eqn:E4; simpl;
    (split; [reflexivity|]); (split; [try discriminate; reflexivity|]);
    (split; [try reflexivity; intros H; now elim H|]);
    exists 4%nat; simpl; rewrite <- ?app_assoc in *; simpl in *;
    (repeat split; try lia; try congruence);
    intros j Hj; destruct j as [|[|[|j]]]; try lia; simpl;
    rewrite ?app_nil_r; assumption.
Qed.

Lemma result_None_config (env : Env) (c : Config) (st : State) :
  LogMode c <> consoleMode -> result (SetUp env c) st = None ->
  config_error c = None.
Proof.
  intros Hm Hr. destruct (config_error_dec c) as [He|He]; [exact He|].
  unfold result in Hr. rewrite SetUp_config_error in Hr by assumption.
  exact Hr.
Qed.

(** The first setup that reaches the guarded section, call by call. *)
Lemma SetUp_first_steps (env : Env) (c : Config) (st : State) :
  LogMode c <> consoleMode -> once st = false -> config_error c = None ->
  let st1 := after (SetUp env c) st in
  let files := log_files (log_dir env c st) in
  once st1 = true /\
  (result (SetUp env c) st <> None -> initialized st1 = initialized st) /\
  exists k, (1 <= k <= 4)%nat /\
    trace st1 =
      (trace st ++ map (create_event (options st1)) (firstn k files))%list /\
    (forall j, (j + 1 < k)%nat ->
               create_answer env (trace st) (options st1) files j = None) /\
    result (SetUp env c) st =
      create_answer env (trace st) (options st1) files (k - 1) /\
    ((k < 4)%nat -> result (SetUp env c) st <> None).
Proof.
  intros Hm Ho He. cbv zeta. unfold after, result, log_files.
  rewrite SetUp_first_explicit by assumption. cbv zeta.
  pose proof (setupFiles_once_cases env (file_options c)
                (path_Join [log_dir env c st; accessFilename])
                (path_Join [log_dir env c st; errorFilename])
                (path_Join [log_dir env c st; slowFilename])
                (path_Join [log_dir env c st; statFilename]) None st) as Hc.
  pose proof (setupFiles_once_steps env (file_options c)
                (path_Join [log_dir env c st; accessFilename])
                (path_Join [log_dir env c st; errorFilename])
                (path_Join [log_dir env c st; slowFilename])
                (path_Join [log_dir env c st; statFilename]) None st)
    as Hs.
  cbv zeta in Hc, Hs.
  destruct Hs as (Hopt & _ & _ & k & Hk & Ht & Hj & Hr & Hlt);
    try (apply log_file_nonempty; discriminate).
  destruct (setupFiles_once env (file_options c) _ _ _ _ None st) as [r st'].
  simpl in *. destruct Hc as (_ & _ & Hc).
  split; [reflexivity|]. split.
  - intros Hne. destruct Hc as [(e & _ & Hi) | (Hn & _)];
      [exact Hi|contradiction].
  - exists k. rewrite Hopt. repeat split; auto; lia.
Qed.

(** X5: the first file- or volume-mode [SetUp] that passes the
    configuration checks creates the rotate loggers in the fixed order
    access, error, slow, stat and stops after the first [NewLogger] that
    fails: it makes [k] calls, the first [k - 1] succeed, it returns what the
    [k]-th call returned, and [k = 4] unless that call failed.  The guard has
    fired afterwards either way, and after a failure the readiness flag is
    as it was. *)
Theorem SetUp_stops_at_first_failure (env : Env) (c : Config) (st : State) :
  LogMode c <> consoleMode -> once st = false -> config_error c = None ->
  let st1 := after (SetUp env c) st in
  let files := log_files (log_dir env c st) in
  once st1 = true /\
  (result (SetUp env c) st <> None -> initialized st1 = initialized st) /\
  exists k, (1 <= k <= 4)%nat /\
    trace st1 =
      (trace st ++ map (create_event (options st1)) (firstn k files))%list /\
    (forall j, (j + 1 < k)%nat ->
               create_answer env (trace st) (options st1) files j = None) /\
    result (SetUp env c) st =
      create_answer env (trace st) (options st1) files (k - 1) /\
    ((k < 4)%nat -> result (SetUp env c) st <> None).
Proof. exact (SetUp_first_steps env c st). Qed.

Lemma SetUp_stops_at_first_failure_witness :
  let st1 := after (SetUp env_open_fails file_config) init in
  once st1 = true /\ initialized st1 = 0.
Proof.
  destruct (SetUp_stops_at_first_failure env_open_fails file_config init)
    as (Ho & Hi & _); try reflexivity; try discriminate.
  split; [exact Ho|]. apply Hi. discriminate.
Defined.

(** What a successful first setup leaves. *)
Lemma SetUp_first_success (env : Env) (c : Config) (st : State) :
  LogMode c <> consoleMode -> once st = false ->
  result (SetUp env c) st = None ->
  let st1 := after (SetUp env c) st in
  logStackCoolDownMills (options st1) = StackCoolDownMillis c /\
  gzipEnabled (options st1) = (gzipEnabled (options st) || Compress c)%bool /\
  keepDays (options st1) =
    (if Z.ltb 0 (KeepDays c) then KeepDays c else keepDays (options st)) /\
  stackLog st1 = Some (NewLessLogger (StackCoolDownMillis c)) /\
  initialized st1 = 1 /\ once st1 = true /\
  writeConsole st1 = writeConsole st /\
  trace st1 =
    (trace st ++
     map (create_event (options st1)) (log_files (log_dir env c st)))%list.
Proof.
  intros Hm Ho Hr.
  pose proof (result_None_config env c st Hm Hr) as He.
  destruct (SetUp_first_steps env c st Hm Ho He)
    as (Hon & _ & k & Hk & Ht & _ & _ & Hlt).
  destruct (SetUp_files_summary env c st Hm) as (Hw & _ & _ & Hc).
  cbv zeta. unfold after, result in *.
  rewrite SetUp_first_explicit in * by assumption. cbv zeta in *.
  pose proof (setupFiles_once_steps env (file_options c)
                (path_Join [log_dir env c st; accessFilename])
                (path_Join [log_dir env c st; errorFilename])
                (path_Join [log_dir env c st; slowFilename])
                (path_Join [log_dir env c st; statFilename]) None st)
    as Hs.
  pose proof (setupFiles_once_cases env (file_options c)
                (path_Join [log_dir env c st; accessFilename])
                (path_Join [log_dir env c st; errorFilename])
                (path_Join [log_dir env c st; slowFilename])
                (path_Join [log_dir env c st; statFilename]) None st) as Hi.
  cbv zeta in Hs, Hi.
  destruct Hs as (Hopt & Hst & _); try (apply log_file_nonempty; discriminate).
  destruct (setupFiles_once env (file_options c) _ _ _ _ None st) as [r st'].
  simpl in *. subst r.
  destruct (file_options_apply c (options st)) as (Hcd & Hgz & Hkd).
  rewrite Hopt. rewrite Hst by reflexivity. rewrite Hcd.
  repeat split; auto.
  - destruct Hi as (_ & _ & [(e & Hx & _) | (_ & Hx & _)]);
      [discriminate|exact Hx].
  - assert (k = 4)%nat as -> .
    { destruct (Nat.eq_dec k 4) as [E|E]; [exact E|].
      exfalso. apply Hlt; [lia|reflexivity]. }
    rewrite Ht, Hopt. reflexivity.
Qed.

(** X6: a successful first file- or volume-mode [SetUp] leaves the options
    built from the configuration: the cooldown is the configured one,
    compression is on if it was on or the configuration asks for it, the
    retention is the configured [KeepDays] when that is positive and is left
    as it was otherwise; the stack logger is made with the configured
    cooldown, the flag is up, and exactly the four loggers were created, in
    order, under those options. *)
Theorem SetUp_success_postcondition (env : Env) (c : Config) (st : State) :
  LogMode c <> consoleMode -> once st = false ->
  result (SetUp env c) st = None ->
  let st1 := after (SetUp env c) st in
  logStackCoolDownMills (options st1) = StackCoolDownMillis c /\
  gzipEnabled (options st1) = (gzipEnabled (options st) || Compress c)%bool /\
  keepDays (options st1) =
    (if Z.ltb 0 (KeepDays c) then KeepDays c else keepDays (options st)) /\
  stackLog st1 = Some (NewLessLogger (StackCoolDownMillis c)) /\
  initialized st1 = 1 /\ once st1 = true /\
  writeConsole st1 = writeConsole st /\
  trace st1 =
    (trace st ++
     map (create_event (options st1)) (log_files (log_dir env c st)))%list.
Proof. exact (SetUp_first_success env c st). Qed.

Lemma SetUp_success_postcondition_witness :
  let st1 := after (SetUp env_ok volume_config) init in
  keepDays (options st1) = 7 /\ gzipEnabled (options st1) = false /\
  stackLog st1 = Some (NewLessLogger 100).
Proof.
  destruct (SetUp_success_postcondition env_ok volume_config init)
    as (_ & Hg & Hk & Hs & _); try reflexivity; try discriminate.
  split; [exact Hk|split; [exact Hg|exact Hs]].
Defined.

(** ** What stays fixed once the guard has fired *)

(** [Close] touches the readiness flag and the trace only. *)
Lemma Close_frame (env : Env) (st : State) :
  exists i t, snd (Close env st) = set_trace t (set_initialized i st).
Proof.
  unfold Close, closeIfSet, sink_Close. monad_unfold.
  destruct (writeConsole st).
  { exists (initialized st), (trace st). now destruct st. }
  destruct (Z.eqb (initialized st) 0).
  { exists (initialized st), (trace st). now destruct st. }
  simpl.
  repeat
    (match goal with
     | |- context [match ?w with Some _ => _ | None => _ end] =>
         match type of w with
         | option Sink => destruct w as [[?|? ? ?]|]
         | option error => destruct w
         end
     end; simpl);
    eexists; eexists; reflexivity.
Qed.

Lemma step_frozen (env : Env) (op : Op) (st : State) :
  once st = true ->
  exists w i t,
    step env op st = set_trace t (set_initialized i (set_writeConsole w st)).
Proof.
  intros Ho. destruct op as [c| |m|m d|m|m|m].
  - simpl. unfold after.
    destruct (String.eqb (LogMode c) consoleMode) eqn:Em.
    + apply String.eqb_eq in Em. rewrite SetUp_console by exact Em.
      rewrite setupWithConsole_done by exact Ho.
      exists true, (initialized st), (trace st). now destruct st.
    + apply String.eqb_neq in Em. rewrite SetUp_done by assumption.
      exists (writeConsole st), (initialized st), (trace st).
      now destruct st.
  - simpl. unfold after. destruct (Close_frame env st) as (i & t & ->).
    exists (writeConsole st), i, t. now destruct st.
  - exists (writeConsole st), (initialized st),
      (trace (step env (OpInfo m) st)).
    rewrite (logging_globals env (OpInfo m)) by (intros; discriminate).
    now destruct st.
  - exists (writeConsole st), (initialized st),
      (trace (step env (OpError m d) st)).
    rewrite (logging_globals env (OpError m d)) by (intros; discriminate).
    now destruct st.
  - exists (writeConsole st), (initialized st),
      (trace (step env (OpSlow m) st)).
    rewrite (logging_globals env (OpSlow m)) by (intros; discriminate).
    now destruct st.
  - exists (writeConsole st), (initialized st),
      (trace (step env (OpStat m) st)).
    rewrite (logging_globals env (OpStat m)) by (intros; discriminate).
    now destruct st.
  - exists (writeConsole st), (initialized st),
      (trace (step env (OpStack m) st)).
    rewrite (logging_globals env (OpStack m)) by (intros; discriminate).
    now destruct st.
Qed.

(** X7: once the guard has fired, no call of the package ever replaces a
    sink, the stack logger or the options: whatever calls follow, the four
    sinks, [stackLog] and [options] are the ones the state had (at most one
    set of sinks for the life of the process). *)
Theorem sinks_frozen (env : Env) (st : State) (ops : list Op) :
  once st = true ->
  let st' := run env ops st in
  infoLog st' = infoLog st /\ errorLog st' = errorLog st /\
  slowLog st' = slowLog st /\ statLog st' = statLog st /\
  stackLog st' = stackLog st /\ options st' = options st /\
  once st' = true.
Proof.
  revert st. induction ops as [|op ops IH]; intros st Ho; simpl.
  - repeat split; auto.
  - pose proof (step_once env op st Ho) as Ho'.
    destruct (IH (step env op st) Ho') as (Ha & He & Hs & Ht & Hk & Hp & Hq).
    destruct (step_frozen env op st Ho) as (w & i & t & E).
    unfold run in *.
    split; [rewrite Ha, E; reflexivity|].
    split; [rewrite He, E; reflexivity|].
    split; [rewrite Hs, E; reflexivity|].
    split; [rewrite Ht, E; reflexivity|].
    split; [rewrite Hk, E; reflexivity|].
    split; [rewrite Hp, E; reflexivity|exact Hq].
Qed.

Lemma sinks_frozen_witness :
  let st := after (SetUp env_ok file_config) init in
  let st' :=
    run env_ok [OpClose; OpSetUp console_config; OpSetUp volume_config] st in
  infoLog st' = infoLog st /\ options st' = options st.
Proof.
  destruct (sinks_frozen env_ok (after (SetUp env_ok file_config) init)
              [OpClose; OpSetUp console_config; OpSetUp volume_config])
    as (Ha & _ & _ & _ & _ & Hp & _); [reflexivity|].
  split; [exact Ha|exact Hp].
Defined.

Lemma step_flag_down (env : Env) (op : Op) (st : State) :
  once st = true -> initialized st = 0 ->
  initialized (step env op st) = 0.
Proof.
  intros Ho Hi. destruct op as [c| |m|m d|m|m|m];
    try (rewrite logging_globals by (intros; discriminate); exact Hi).
  - simpl. unfold after.
    destruct (String.eqb (LogMode c) consoleMode) eqn:Em.
    + apply String.eqb_eq in Em. rewrite SetUp_console by exact Em.
      now rewrite setupWithConsole_done.
    + apply String.eqb_neq in Em. now rewrite SetUp_done.
  - simpl. unfold after. destruct (writeConsole st) eqn:Ew.
    + now rewrite Close_console.
    + now rewrite Close_not_initialized.
Qed.

Lemma run_flag_down (env : Env) (ops : list Op) (st : State) :
  once st = true -> initialized st = 0 ->
  initialized (run env ops st) = 0.
Proof.
  revert st. induction ops as [|op ops IH]; intros st Ho Hi; simpl;
    [exact Hi|].
  apply IH; [now apply step_once|now apply step_flag_down].
Qed.

Lemma Close_flag_down (env : Env) (st : State) :
  initialized st = 0 -> after (Close env) st = st.
Proof.
  intros Hi. unfold after. destruct (writeConsole st) eqn:Ew.
  - now rewrite Close_console.
  - now rewrite Close_not_initialized.
Qed.

(** X8: a failed setup is final.  When a file- or volume-mode [SetUp] whose
    configuration passes the checks returns an error on a process whose flag
    is down, no later call can raise the readiness flag: whatever calls
    follow (further [SetUp] calls with any configuration included), the flag
    stays down, every Info message goes to the raw fallback writer, and
    [Close] closes nothing. *)
Theorem failed_SetUp_is_final (env : Env) (c : Config) (st : State)
        (ops : list Op) (msg : string) :
  LogMode c <> consoleMode -> config_error c = None ->
  initialized st = 0 -> result (SetUp env c) st <> None ->
  let st' := run env ops (after (SetUp env c) st) in
  initialized st' = 0 /\
  infoSync env msg st' =
    (tt, set_trace
           (trace st' ++ [EvStdPrint (time_Now env (trace st') ++ " " ++ msg)])%list
           st') /\
  after (Close env) st' = st'.
Proof.
  intros Hm He Hi Hr. cbv zeta.
  assert (Ho : once st = false).
  { destruct (once st) eqn:Ho; [|reflexivity]. exfalso. apply Hr.
    unfold result. rewrite SetUp_done by assumption. exact He. }
  destruct (SetUp_first_steps env c st Hm Ho He)
    as (Hon & Hfl & _).
  assert (Hz : initialized (run env ops (after (SetUp env c) st)) = 0).
  { apply run_flag_down; [exact Hon|]. rewrite Hfl by exact Hr. exact Hi. }
  split; [exact Hz|]. split.
  - rewrite infoSync_eq, Hz. simpl. now rewrite output_eq.
  - now apply Close_flag_down.
Qed.

Lemma failed_SetUp_is_final_witness :
  let st' :=
    run env_open_fails [OpSetUp file_config; OpSetUp volume_config]
        (after (SetUp env_open_fails file_config) init) in
  initialized st' = 0.
Proof.
  destruct (failed_SetUp_is_final env_open_fails file_config init
              [OpSetUp file_config; OpSetUp volume_config] "x")
    as (H & _);
    [discriminate|reflexivity|reflexivity|discriminate|exact H].
Defined.

(** X9: [Close] is final.  In a state a run of the package reaches with the
    flag up and outside console mode, after [Close] (whether or not a sink's
    close failed) no later call can raise the readiness flag: the flag stays
    down, every Info message goes to the raw fallback writer and not to the
    closed access log, and a further [Close] closes nothing, so sinks that
    were left open by a failed [Close] stay open. *)
Theorem Close_is_final (env : Env) (ops0 ops : list Op) (msg : string) :
  let st := run env ops0 init in
  writeConsole st = false -> initialized st <> 0 ->
  let st' := run env ops (after (Close env) st) in
  initialized st' = 0 /\
  infoSync env msg st' =
    (tt, set_trace
           (trace st' ++ [EvStdPrint (time_Now env (trace st') ++ " " ++ msg)])%list
           st') /\
  after (Close env) st' = st'.
Proof.
  cbv zeta. intros Hw Hi.
  assert (Hinv : ready_inv (run env ops0 init))
    by (apply run_ready_inv, init_ready_inv).
  destruct (Hinv Hi) as (Ho & _).
  destruct (Close_clears env (run env ops0 init) Hw) as (Hz & _ & Ho').
  assert (Hd : initialized
                 (run env ops (after (Close env) (run env ops0 init))) = 0).
  { apply run_flag_down; unfold after; [now rewrite Ho'|exact Hz]. }
  split; [exact Hd|]. split.
  - rewrite infoSync_eq, Hd. simpl. now rewrite output_eq.
  - now apply Close_flag_down.
Qed.

Lemma Close_is_final_witness :
  let st := run env_ok [OpSetUp file_config] init in
  let st' := run env_ok [OpSetUp file_config; OpInfo "late"]
                 (after (Close env_ok) st) in
  initialized st' = 0 /\ after (Close env_ok) st' = st'.
Proof.
  destruct (Close_is_final env_ok [OpSetUp file_config]
              [OpSetUp file_config; OpInfo "late"] "x")
    as (H & _ & Hc); [reflexivity|discriminate|].
  split; [exact H|exact Hc].
Defined.

Lemma set_writeConsole_same (st : State) :
  writeConsole st = true -> set_writeConsole true st = st.
Proof. intros H. destruct st; simpl in *. now subst. Qed.

(** X10: a console-mode [SetUp] made after the guard has fired installs no
    console writer: it only sets [writeConsole].  The sinks, the flag and
    the trace stay as they were, so after a file-mode setup the messages keep
    going to the files, while [Close] from then on returns nil without
    closing them. *)
Theorem console_SetUp_after_guard (env : Env) (c : Config) (st : State) :
  LogMode c = consoleMode -> once st = true ->
  SetUp env c st = (None, set_writeConsole true st) /\
  Close env (after (SetUp env c) st) = (None, after (SetUp env c) st).
Proof.
  intros Hm Ho. unfold after. rewrite SetUp_console by exact Hm.
  rewrite setupWithConsole_done by exact Ho. simpl.
  split; [reflexivity|]. now apply Close_console.
Qed.

Lemma console_SetUp_after_guard_witness :
  let st := after (SetUp env_ok file_config) init in
  let st1 := after (SetUp env_ok console_config) st in
  SetUp env_ok console_config st = (None, set_writeConsole true st) /\
  Close env_ok st1 = (None, st1).
Proof.
  apply (console_SetUp_after_guard env_ok console_config
           (after (SetUp env_ok file_config) init));
    vm_compute; reflexivity.
Defined.

(** X11: [SetUp] is idempotent on the state: in every mode and from every
    state, a second [SetUp] with the same configuration leaves the state the
    first one left. *)
Theorem SetUp_idempotent (env : Env) (c : Config) (st : State) :
  after (SetUp env c) (after (SetUp env c) st) = after (SetUp env c) st.
Proof.
  destruct (String.eqb (LogMode c) consoleMode) eqn:Em.
  - apply String.eqb_eq in Em. unfold after.
    rewrite !SetUp_console by exact Em. simpl.
    assert (H : once (snd (setupWithConsole st)) = true /\
                writeConsole (snd (setupWithConsole st)) = true).
    { destruct (once st) eqn:Ho;
        [rewrite setupWithConsole_done|rewrite setupWithConsole_first];
        auto. }
    destruct H as [Ho Hw].
    rewrite (setupWithConsole_done (snd (setupWithConsole st))) by exact Ho.
    simpl. now apply set_writeConsole_same.
  - apply String.eqb_neq in Em.
    destruct (config_error_dec c) as [He|He].
    + destruct (SetUp_files_summary env c st Em) as (_ & _ & Ho & _).
      specialize (Ho He). unfold after in *.
      now rewrite (SetUp_done env c (snd (SetUp env c st))).
    + unfold after. now rewrite !SetUp_config_error.
Qed.

(** X12: [Close] is idempotent on the state: from every state, a second
    [Close] changes nothing (it closes no sink again). *)
Theorem Close_idempotent (env : Env) (st : State) :
  after (Close env) (after (Close env) st) = after (Close env) st.
Proof.
  destruct (writeConsole st) eqn:Ew.
  - unfold after. rewrite (Close_console env st Ew). simpl.
    now rewrite Close_console.
  - destruct (Close_clears env st Ew) as (Hz & _).
    now apply Close_flag_down.
Qed.

(** X13: after a successful first file- or volume-mode [SetUp], each
    category writes to its own file of the log directory: Info to
    access.log, Error to error.log, Slow to slow.log, Stat to stat.log, and
    the stack category hands its message to the stack logger made with the
    configured cooldown. *)
Theorem file_mode_routing (env : Env) (c : Config) (st : State)
        (msg : string) (d : Z) :
  LogMode c <> consoleMode -> once st = false ->
  result (SetUp env c) st = None ->
  let st1 := after (SetUp env c) st in
  let t := trace st1 in
  let dir := log_dir env c st in
  let line := time_Now env t ++ " " ++ msg in
  let sink := fun name => fileSink (options st1) (path_Join [dir; name]) in
  infoSync env msg st1 =
    (tt, set_trace (t ++ write_events env t (sink accessFilename) line) st1) /\
  errorSync env msg d st1 =
    (tt, set_trace
           (t ++ write_events env t (sink errorFilename)
                              (error_content env t msg d)) st1) /\
  slowSync env msg st1 =
    (tt, set_trace (t ++ write_events env t (sink slowFilename) line) st1) /\
  statSync env msg st1 =
    (tt, set_trace (t ++ write_events env t (sink statFilename) line) st1) /\
  stackSync env msg st1 =
    (tt, set_trace
           (t ++ [EvLessErrorf (Some (NewLessLogger (StackCoolDownMillis c)))
                               msg (debug_Stack env t)]) st1).
Proof.
  intros Hm Ho Hr. cbv zeta.
  destruct (SetUp_first_success env c st Hm Ho Hr)
    as (_ & _ & _ & Hk & Hi & _).
  destruct (SetUp_files_summary env c st Hm) as (_ & _ & _ & Hc).
  unfold after, result in *.
  destruct Hc as [Hc | (_ & _ & [(e & He & _) | (_ & _ & Ha & He & Hs & Ht)])].
  - rewrite Hc in Hi. pose proof (result_None_config env c st Hm Hr) as Hce.
    destruct (SetUp_files_summary env c st Hm) as (_ & _ & Hon & _).
    specialize (Hon Hce). rewrite Hc in Hon. congruence.
  - congruence.
  - rewrite infoSync_eq, errorSync_eq, slowSync_eq, statSync_eq,
      stackSync_eq, Hi, Ha, He, Hs, Ht, Hk. simpl.
    rewrite outputError_eq, !output_eq. repeat split.
Qed.

Lemma file_mode_routing_witness :
  let st1 := after (SetUp env_ok file_config) init in
  trace (after (errorSync env_ok "boom" 6) st1) =
  (trace st1 ++
   [EvSinkWrite (fileSink (options st1) "/var/log/app/error.log")
                "2024-05-01 10:00:00.000 handler.go:42 boom"])%list.
Proof.
  destruct (file_mode_routing env_ok file_config init "boom" 6)
    as (_ & He & _);
    [discriminate|vm_compute; reflexivity|vm_compute; reflexivity|].
  cbv zeta in *. unfold after at 1. rewrite He. vm_compute. reflexivity.
Defined.

(** ** [output] and the console writers *)

(** X14: when [output] is given a sink, the message is never printed
    through the raw fallback writer, whether or not the write succeeds; when
    the write to a rotate logger fails, the only things done are the failed
    write and a [log.Println] of the error, so the message is lost. *)
Theorem failed_write_not_rerouted (env : Env) (w : Sink) (msg : string)
        (st : State) :
  let line := time_Now env (trace st) ++ " " ++ msg in
  exists evs,
    output env (Some w) msg st = (tt, set_trace (trace st ++ evs)%list st) /\
    existsb is_StdPrint evs = false /\
    forall f r g e,
      w = RotateLogger f r g ->
      sink_Write_err env (trace st) w line = Some e ->
      evs = [EvSinkWrite w line; EvStdPrintln e].
Proof.
  cbv zeta. eexists. split; [apply output_eq|].
  unfold write_events. destruct w as [l|f r g]; simpl.
  - split; [reflexivity|]. intros; discriminate.
  - destruct (sink_Write_err env (trace st) (RotateLogger f r g) _) eqn:E;
      simpl; (split; [reflexivity|]); intros f' r' g' e' _ H;
      [now injection H as <- | discriminate].
Qed.

Lemma failed_write_not_rerouted_witness :
  let env :=
    mkEnv (os_Hostname env_ok) (time_Now env_ok) (runtime_Caller env_ok)
          (debug_Stack env_ok) (NewLogger_err env_ok)
          (fun _ _ _ => Some (ErrExternal "disk full"))
          (sink_Close_err env_ok) in
  let w := fileSink (mkLogOptions false 0 0) "/var/log/app/access.log" in
  trace (after (output env (Some w) "paid") init) =
  [EvSinkWrite w "2024-05-01 10:00:00.000 paid";
   EvStdPrintln (ErrExternal "disk full")].
Proof.
  cbv zeta.
  destruct (failed_write_not_rerouted
              (mkEnv (os_Hostname env_ok) (time_Now env_ok)
                     (runtime_Caller env_ok) (debug_Stack env_ok)
                     (NewLogger_err env_ok)
                     (fun _ _ _ => Some (ErrExternal "disk full"))
                     (sink_Close_err env_ok))
              (fileSink (mkLogOptions false 0 0) "/var/log/app/access.log")
              "paid" init) as (evs & Ho & _ & He).
  unfold after. rewrite Ho. simpl.
  apply (He "/var/log/app/access.log"
            (DefaultBackupRule "/var/log/app/access.log" "-" 0 false) false
            (ErrExternal "disk full")); reflexivity.
Defined.

(** X15: when console-mode [SetUp] is the setup that fires the guard, then,
    whatever calls follow, an Error message is one write to standard error
    with the prefix ["[ERROR] "] and a Slow message is one write to standard
    error with the prefix ["[SLOW]"] (which has no space after it); a console
    write never fails, so nothing is reported through [log.Println]. *)
Theorem console_error_slow_routing (env : Env) (c : Config) (st : State)
        (ops : list Op) (msg : string) (d : Z) :
  LogMode c = consoleMode -> once st = false ->
  let st1 := run env ops (after (SetUp env c) st) in
  let t := trace st1 in
  let line := time_Now env t ++ " " ++ msg in
  let content := error_content env t msg d in
  let nl := fun s => if endsWithNewline s then "" else String "010"%char "" in
  errorSync env msg d st1 =
    (tt, set_trace
           (t ++ [EvStream Stderr ("[ERROR] " ++ content ++ nl content)])%list
           st1) /\
  slowSync env msg st1 =
    (tt, set_trace
           (t ++ [EvStream Stderr ("[SLOW]" ++ line ++ nl line)])%list st1).
Proof.
  intros Hm Ho. cbv zeta.
  assert (Hr : console_ready (run env ops (after (SetUp env c) st))).
  { apply run_console_ready. unfold after.
    rewrite SetUp_console by exact Hm.
    rewrite setupWithConsole_first by exact Ho.
    unfold console_ready. simpl. repeat split. }
  destruct Hr as (_ & _ & Hi & _ & He & Hs & _).
  rewrite errorSync_eq, slowSync_eq, Hi, He, Hs. simpl.
  rewrite outputError_eq, output_eq. split; reflexivity.
Qed.

Lemma console_error_slow_routing_witness :
  let st1 := after (SetUp env_ok console_config) init in
  trace (after (slowSync env_ok "query took 2s") st1) =
  [EvStream Stderr
     ("[SLOW]2024-05-01 10:00:00.000 query took 2s" ++ String "010"%char "")].
Proof.
  destruct (console_error_slow_routing env_ok console_config init []
              "query took 2s" 6) as (_ & Hs);
    [vm_compute; reflexivity|vm_compute; reflexivity|].
  cbv zeta in *. unfold after at 1. unfold run in Hs. simpl fold_left in Hs.
  rewrite Hs. vm_compute. reflexivity.
Defined.

(** ** Options *)

(** X16: no list of options turns compression off: if gzip is enabled
    before [handleOptions], it is enabled after it, whatever the options
    are; and [handleOptions] changes nothing but the options. *)
Theorem handleOptions_keeps_gzip (opts : list LogOption) (st : State) :
  gzipEnabled (options st) = true ->
  gzipEnabled (options (after (handleOptions opts) st)) = true /\
  after (handleOptions opts) st =
  set_options (options (after (handleOptions opts) st)) st.
Proof.
  intros H. unfold after, handleOptions, modify. simpl. split; [|reflexivity].
  generalize dependent (options st). clear st.
  induction opts as [|opt opts IH]; intros o H; simpl; [exact H|].
  apply IH. destruct opt; simpl; auto.
Qed.

Lemma handleOptions_keeps_gzip_witness :
  gzipEnabled
    (options
       (after (handleOptions [WithKeepDays 5; WithCoolDownMillis 10])
              (set_options (mkLogOptions true 0 0) init))) = true.
Proof.
  apply (handleOptions_keeps_gzip [WithKeepDays 5; WithCoolDownMillis 10]
           (set_options (mkLogOptions true 0 0) init)).
  reflexivity.
Defined.

(** ** [Init] *)

(** X17: [Init] with a file- or volume-mode configuration that fails the
    path or namespace check prints the error's message through the standard
    logger and exits with status 1, touching nothing else; with a
    configuration that passes the checks, once the guard has fired, [Init]
    returns normally and changes nothing, even when the earlier setup had
    failed and the readiness flag is down. *)
Theorem Init_outcomes (env : Env) (c : Config) (st : State) :
  LogMode c <> consoleMode ->
  (forall e, config_error c = Some e ->
             Init env c st =
             (Exited 1,
              set_trace (trace st ++ [EvStdPrint (error_Error e)])%list st)) /\
  (config_error c = None -> once st = true -> Init env c st = (Running, st)).
Proof.
  intros Hm. unfold Init, log_Print. split.
  - intros e He. unfold bind at 1.
    rewrite SetUp_config_error by (auto; congruence). rewrite He.
    reflexivity.
  - intros He Ho. unfold bind. rewrite SetUp_done by assumption.
    now rewrite He.
Qed.

Lemma Init_outcomes_witness :
  Init env_ok (mkConfig "" "file" "" false 0 0) init =
    (Exited 1, set_trace [EvStdPrint "log path must be set"] init) /\
  (let st := after (SetUp env_open_fails file_config) init in
   Init env_open_fails file_config st = (Running, st)).
Proof.
  destruct (Init_outcomes env_ok (mkConfig "" "file" "" false 0 0) init)
    as (H1 & _); [discriminate|].
  destruct (Init_outcomes env_open_fails file_config
              (after (SetUp env_open_fails file_config) init))
    as (_ & H2); [discriminate|].
  split; [apply (H1 ErrLogPathNotSet); reflexivity|].
  apply H2; vm_compute; reflexivity.
Defined.

(** ** How often [NewLogger] is called *)

Lemma NewLogger_calls_app (a b : list Event) :
  NewLogger_calls (a ++ b) = (NewLogger_calls a + NewLogger_calls b)%nat.
Proof. unfold NewLogger_calls. now rewrite filter_app, length_app. Qed.

Lemma NewLogger_calls_write (env : Env) (t : list Event) (w : Sink)
      (data : string) :
  NewLogger_calls (write_events env t w data) = 0%nat.
Proof.
  unfold write_events. destruct w as [l|f r g]; [reflexivity|].
  now destruct (sink_Write_err env t (RotateLogger f r g) data).
Qed.

Lemma NewLogger_calls_create (o : logOptions) (files : list string) :
  NewLogger_calls (map (create_event o) files) = List.length files.
Proof.
  unfold NewLogger_calls. induction files as [|f files IH]; simpl;
    [reflexivity|now rewrite IH].
Qed.

Lemma output_calls (env : Env) (w : option Sink) (msg : string) (st : State) :
  NewLogger_calls (trace (snd (output env w msg st)))
  = NewLogger_calls (trace st).
Proof.
  rewrite output_eq. simpl. rewrite NewLogger_calls_app.
  destruct w as [s|]; [rewrite NewLogger_calls_write|reflexivity || (unfold NewLogger_calls; simpl)]; lia.
Qed.

Lemma outputError_calls (env : Env) (w : option Sink) (msg : string) (d : Z)
      (st : State) :
  NewLogger_calls (trace (snd (outputError env w msg d st)))
  = NewLogger_calls (trace st).
Proof.
  rewrite outputError_eq. simpl. rewrite NewLogger_calls_app.
  destruct w as [s|]; [rewrite NewLogger_calls_write|reflexivity || (unfold NewLogger_calls; simpl)]; lia.
Qed.

Lemma Close_calls (env : Env) (st : State) :
  NewLogger_calls (trace (snd (Close env st))) = NewLogger_calls (trace st).
Proof.
  unfold Close, closeIfSet, sink_Close. monad_unfold.
  destruct (writeConsole st); [reflexivity|].
  destruct (Z.eqb (initialized st) 0); [reflexivity|]. simpl.
  repeat
    (match goal with
     | |- context [match ?w with Some _ => _ | None => _ end] =>
         match type of w with
         | option Sink => destruct w as [[?|? ? ?]|]
         | option error => destruct w
         end
     end; simpl);
    rewrite ?NewLogger_calls_app; unfold NewLogger_calls; simpl; lia.
Qed.

(** One call either leaves the number of [NewLogger] calls as it is, or it
    is the call that fires the guard and adds at most four. *)
Lemma step_calls (env : Env) (op : Op) (st : State) :
  NewLogger_calls (trace (step env op st)) = NewLogger_calls (trace st) \/
  (once st = false /\ once (step env op st) = true /\
   (NewLogger_calls (trace (step env op st))
    <= NewLogger_calls (trace st) + 4)%nat).
Proof.
  destruct op as [c| |m|m d|m|m|m]; simpl; unfold after.
  - destruct (String.eqb (LogMode c) consoleMode) eqn:Em.
    + apply String.eqb_eq in Em. rewrite SetUp_console by exact Em.
      left. destruct (once st) eqn:Ho;
        [rewrite setupWithConsole_done|rewrite setupWithConsole_first];
        auto.
    + apply String.eqb_neq in Em. destruct (once st) eqn:Ho.
      * left. now rewrite SetUp_done.
      * destruct (config_error_dec c) as [He|He].
        -- right.
           destruct (SetUp_first_steps env c st Em Ho He)
             as (Hon & _ & k & Hk & Ht & _).
           unfold after in *. split; [reflexivity|]. split; [exact Hon|].
           rewrite Ht, NewLogger_calls_app, NewLogger_calls_create.
           pose proof (firstn_le_length k (log_files (log_dir env c st))).
           lia.
        -- left. now rewrite SetUp_config_error.
  - left. apply Close_calls.
  - left. rewrite infoSync_eq. apply output_calls.
  - left. rewrite errorSync_eq. apply outputError_calls.
  - left. rewrite slowSync_eq. apply output_calls.
  - left. rewrite statSync_eq. apply output_calls.
  - left. rewrite stackSync_eq. destruct (Z.eqb (initialized st) 0).
    + apply output_calls.
    + simpl. rewrite NewLogger_calls_app. unfold NewLogger_calls. simpl.
      lia.
Qed.

Lemma run_calls (env : Env) (ops : list Op) (st : State) (n : nat) :
  (NewLogger_calls (trace st) <= n)%nat ->
  (once st = true ->
   NewLogger_calls (trace (run env ops st)) = NewLogger_calls (trace st)) /\
  (NewLogger_calls (trace (run env ops st)) <= n + 4)%nat.
Proof.
  revert st n. induction ops as [|op ops IH]; intros st n Hn; simpl.
  - split; [reflexivity|lia].
  - destruct (step_calls env op st) as [E | (Ho & Ho' & Hle)].
    + assert (Hn' : (NewLogger_calls (trace (step env op st)) <= n)%nat)
        by lia.
      destruct (IH (step env op st) n Hn') as [Hf Hb]. unfold run in *.
      split; [|exact Hb].
      intros Hon. rewrite Hf by now apply step_once. exact E.
    + split; [congruence|].
      assert (Hn' : (NewLogger_calls (trace (step env op st))
                     <= NewLogger_calls (trace (step env op st)))%nat)
        by lia.
      destruct (IH (step env op st) _ Hn') as [Hf _]. unfold run in *.
      rewrite Hf by exact Ho'. lia.
Qed.

(** X18: over the whole life of a process, whatever calls are made and
    however often [SetUp] is retried, [NewLogger] is called at most four
    times; and once the guard has fired it is never called again. *)
Theorem NewLogger_at_most_four (env : Env) (ops : list Op) (st : State) :
  (NewLogger_calls (trace (run env ops init)) <= 4)%nat /\
  (once st = true ->
   NewLogger_calls (trace (run env ops st)) = NewLogger_calls (trace st)).
Proof.
  split.
  - destruct (run_calls env ops init 0) as [_ H]; [exact (le_n 0)|exact H].
  - destruct (run_calls env ops st (NewLogger_calls (trace st))) as [H _];
      [lia|exact H].
Qed.

Lemma NewLogger_at_most_four_witness :
  let st := after (SetUp env_open_fails file_config) init in
  NewLogger_calls
    (trace (run env_open_fails
                [OpSetUp file_config; OpSetUp volume_config] st)) = 1%nat.
Proof.
  destruct (NewLogger_at_most_four env_open_fails
              [OpSetUp file_config; OpSetUp volume_config]
              (after (SetUp env_open_fails file_config) init)) as [_ H].
  cbv zeta. rewrite H; vm_compute; reflexivity.
Defined.
